(** * A realtime voice session client: model and verified properties

    Shallow embedding of the Python sources of the repository:

    - [qwen-sample/omni_realtime_client.py]  (module [OmniRealtimeClient])
    - [qwen-sample/vad_mode.py]              (module [VadMode])
    - [python/samples/audio_player.py]       (module [AudioPlayer])
    - [python/samples/message_handler.py]    (module [MessageHandler])
    - [python/samples/low_level_sample_server_vad.py] (module [ServerVad])

    Python objects become records, methods become functions on them.
    Code that prints, sends, calls back or raises runs in a small monad
    [M] that threads the object, collects the effects in program order and
    stops at the first exception, keeping the mutations made before it. *)

From Stdlib Require Import ZArith List String Ascii Lia QArith Qround.
From Stdlib.Strings Require Import Byte.
From Stdlib.Numbers Require Import DecimalString.
From stdpp Require Import base gmap strings.
Import ListNotations.
Open Scope string_scope.
Open Scope list_scope.
Open Scope Z_scope.

(** ** Python values, exceptions and effects *)

Module Py.

Set Warnings "-register-all".

(** Values produced by [json.loads]. Numbers are kept as integers: the
    code never computes with a number of a frame. *)
Inductive json :=
| JNull
| JBool (b : bool)
| JNum (n : Z)
| JStr (s : string)
| JArr (items : list json)
| JObj (items : list (string * json)).

(** A [dict] with string keys, in insertion order, keys unique. *)
Definition dict := list (string * json).

Inductive exn :=
| KeyError (key : string)
| AttributeError
| TypeError
| ValueError
| BinasciiError
| OSError
| ImportError
| TimeoutError
| JSONDecodeError
| ConnectionClosed
| RaisedByCallback (what : string).

Inductive result (A : Type) :=
| Ok (a : A)
| Raise (e : exn).
Arguments Ok {A} a.
Arguments Raise {A} e.

(** A Python callable handed to the code by the application: it either
    returns ([None]) or raises ([Some e]). *)
Definition callable (A : Type) : Type := A -> option exn.

Fixpoint lookup_key (k : string) (d : dict) : option json :=
  match d with
  | [] => None
  | (k', v) :: d' => if String.eqb k k' then Some v else lookup_key k d'
  end.

(** [d[k] = v]: overwrite in place, or append a new key. *)
Fixpoint dict_set (k : string) (v : json) (d : dict) : dict :=
  match d with
  | [] => [(k, v)]
  | (k', v') :: d' =>
      if String.eqb k k' then (k, v) :: d' else (k', v') :: dict_set k v d'
  end.

(** [x.get(k, default)]: only a dict has [get]. *)
Definition py_get (x : json) (k : string) (default : json) : result json :=
  match x with
  | JObj d => Ok (match lookup_key k d with Some v => v | None => default end)
  | _ => Raise AttributeError
  end.

(** [x[k]] with a string key. *)
Definition py_getitem (x : json) (k : string) : result json :=
  match x with
  | JObj d => match lookup_key k d with
              | Some v => Ok v
              | None => Raise (KeyError k)
              end
  | _ => Raise TypeError
  end.

(** Truth value of [if x:]. *)
Definition truthy (x : json) : bool :=
  match x with
  | JNull => false
  | JBool b => b
  | JNum n => negb (n =? 0)
  | JStr s => negb (String.eqb s "")
  | JArr l => match l with [] => false | _ => true end
  | JObj d => match d with [] => false | _ => true end
  end.

(** [x == s] for a string literal [s]. *)
Definition str_eq (x : json) (s : string) : bool :=
  match x with
  | JStr t => String.eqb t s
  | _ => false
  end.

(** [str(n)] for an [int]. *)
Definition str_of_int (n : Z) : string := NilZero.string_of_int (Z.to_int n).

(** [int(x)]: truncation toward zero. *)
Definition int_of_Q (x : Q) : Z := Z.quot (Qnum x) (Zpos (Qden x)).

Section Monad.
Context {E S : Type}.

Definition M (A : Type) : Type := S -> S * list E * result A.

Definition ret {A} (a : A) : M A := fun s => (s, [], Ok a).

Definition bind {A B} (m : M A) (k : A -> M B) : M B :=
  fun s =>
    match m s with
    | (s1, out1, Ok a) =>
        match k a s1 with
        | (s2, out2, r) => (s2, out1 ++ out2, r)
        end
    | (s1, out1, Raise e) => (s1, out1, Raise e)
    end.

Definition raise {A} (e : exn) : M A := fun s => (s, [], Raise e).

Definition emit (e : E) : M unit := fun s => (s, [e], Ok tt).

Definition get : M S := fun s => (s, [], Ok s).

Definition modify (f : S -> S) : M unit := fun s => (f s, [], Ok tt).

Definition lift {A} (r : result A) : M A :=
  match r with
  | Ok a => ret a
  | Raise e => raise e
  end.

(** [try: m  except Exception as e: h e] *)
Definition try_except {A} (m : M A) (h : exn -> M A) : M A :=
  fun s =>
    match m s with
    | (s1, out1, Ok a) => (s1, out1, Ok a)
    | (s1, out1, Raise e) =>
        match h e s1 with
        | (s2, out2, r) => (s2, out1 ++ out2, r)
        end
    end.

(** Calling an application callable: the call is recorded, then its
    exception, if any, propagates. *)
Definition call {A} (f : callable A) (record : E) (a : A) : M unit :=
  bind (emit record) (fun _ =>
    match f a with
    | None => ret tt
    | Some e => raise e
    end).

(** [try: m  finally: h] *)
Definition try_finally {A} (m : M A) (h : M unit) : M A :=
  fun s =>
    match m s with
    | (s1, out1, r) =>
        match h s1 with
        | (s2, out2, Ok _) => (s2, out1 ++ out2, r)
        | (s2, out2, Raise e) => (s2, out1 ++ out2, Raise e)
        end
    end.

End Monad.

Arguments M : clear implicits.

(** Running the code of an object held in a field of another one: the
    inner object is read with [proj] and written back with [inj], the
    inner effects are wrapped with [wrap]. *)
Definition zoom {E1 E2 S1 S2 A} (proj : S2 -> S1) (inj : S1 -> S2 -> S2)
  (wrap : E1 -> E2) (m : M E1 S1 A) : M E2 S2 A :=
  fun s =>
    match m (proj s) with
    | (s1, out, r) => (inj s1 s, map wrap out, r)
    end.

End Py.

Import Py.

Notation "x <- m ;; k" := (bind m (fun x => k))
  (at level 100, m at level 90, right associativity).
Notation "m ;; k" := (bind m (fun _ => k))
  (at level 100, right associativity).

(** ** [base64.b64encode] and [base64.b64decode]

    The two library functions every audio payload goes through. The
    encoder groups three bytes into four sextets (RFC 4648, with [=]
    padding); the decoder is the lenient one of [binascii.a2b_base64]
    that [b64decode] calls by default: characters outside the alphabet
    are skipped, a complete pad sequence ends the input, and left-over
    sextets raise [binascii.Error]. *)

Module Base64.

Definition bytes := list byte.

Definition byte_to_Z (b : byte) : Z := Z.of_N (Byte.to_N b).

(** Storing into an [unsigned char]: the low eight bits. *)
Definition byte_of_Z (z : Z) : byte :=
  match Byte.of_N (Z.to_N (z mod 256)) with
  | Some b => b
  | None => x00
  end.

Definition table_b2a_base64 : string :=
  "ABCDEFGHIJKLMNOPQRSTUVWXYZabcdefghijklmnopqrstuvwxyz0123456789+/".

Definition BASE64_PAD : ascii := "="%char.

Definition b2a (i : Z) : ascii :=
  match String.get (Z.to_nat i) table_b2a_base64 with
  | Some c => c
  | None => BASE64_PAD
  end.

Fixpoint index_of (c : ascii) (tbl : list ascii) (i : Z) : option Z :=
  match tbl with
  | [] => None
  | d :: tbl' => if Ascii.eqb c d then Some i else index_of c tbl' (i + 1)
  end.

Definition table_a2b_base64 (c : ascii) : option Z :=
  index_of c (list_ascii_of_string table_b2a_base64) 0.

Definition sextet1 (x1 : Z) : Z := Z.shiftr x1 2.
Definition sextet2 (x1 x2 : Z) : Z :=
  Z.lor (Z.shiftl (Z.land x1 3) 4) (Z.shiftr x2 4).
Definition sextet3 (x2 x3 : Z) : Z :=
  Z.lor (Z.shiftl (Z.land x2 15) 2) (Z.shiftr x3 6).
Definition sextet4 (x3 : Z) : Z := Z.land x3 63.

Fixpoint b2a_base64 (data : bytes) : list ascii :=
  match data with
  | [] => []
  | [b1] =>
      let x1 := byte_to_Z b1 in
      [ b2a (sextet1 x1); b2a (sextet2 x1 0); BASE64_PAD; BASE64_PAD ]
  | [b1; b2] =>
      let x1 := byte_to_Z b1 in
      let x2 := byte_to_Z b2 in
      [ b2a (sextet1 x1); b2a (sextet2 x1 x2); b2a (sextet3 x2 0);
        BASE64_PAD ]
  | b1 :: b2 :: b3 :: rest =>
      let x1 := byte_to_Z b1 in
      let x2 := byte_to_Z b2 in
      let x3 := byte_to_Z b3 in
      b2a (sextet1 x1) :: b2a (sextet2 x1 x2) :: b2a (sextet3 x2 x3)
      :: b2a (sextet4 x3) :: b2a_base64 rest
  end.

(** The decoding loop: [quad_pos] is the position in the current group
    of four, [leftchar] the bits not yet written, [pads] the pad
    characters seen since the last sextet. *)
Fixpoint a2b_loop (s : list ascii) (quad_pos leftchar pads : Z) (out : bytes)
  : result bytes :=
  match s with
  | [] => if quad_pos =? 0 then Ok out else Raise BinasciiError
  | c :: rest =>
      if Ascii.eqb c BASE64_PAD then
        if 2 <=? quad_pos then
          if 4 <=? quad_pos + (pads + 1) then Ok out
          else a2b_loop rest quad_pos leftchar (pads + 1) out
        else a2b_loop rest quad_pos leftchar pads out
      else
        match table_a2b_base64 c with
        | None => a2b_loop rest quad_pos leftchar pads out
        | Some this_ch =>
            if quad_pos =? 0 then a2b_loop rest 1 this_ch 0 out
            else if quad_pos =? 1 then
              a2b_loop rest 2 (Z.land this_ch 15) 0
                (out ++ [byte_of_Z
                           (Z.lor (Z.shiftl leftchar 2) (Z.shiftr this_ch 4))])
            else if quad_pos =? 2 then
              a2b_loop rest 3 (Z.land this_ch 3) 0
                (out ++ [byte_of_Z
                           (Z.lor (Z.shiftl leftchar 4) (Z.shiftr this_ch 2))])
            else
              a2b_loop rest 0 0 0
                (out ++ [byte_of_Z (Z.lor (Z.shiftl leftchar 6) this_ch)])
        end
  end.

Definition a2b_base64 (s : list ascii) : result bytes := a2b_loop s 0 0 0 [].

Definition is_ascii (c : ascii) : bool := (N_of_ascii c <? 128)%N.

(** [base64.b64encode(s).decode()]: the encoding as a [str]. *)
Definition b64encode (s : bytes) : string :=
  string_of_list_ascii (b2a_base64 s).

(** [base64.b64decode(s)] on a [str]: a character outside ASCII raises
    [ValueError] before decoding starts. *)
Definition b64decode (s : string) : result bytes :=
  let cs := list_ascii_of_string s in
  if forallb is_ascii cs then a2b_base64 cs else Raise ValueError.

(** [base64.b64decode(x)] on a value of a frame: only a string decodes. *)
Definition b64decode_value (x : json) : result bytes :=
  match x with
  | JStr s => b64decode s
  | _ => Raise TypeError
  end.

(** Exhaustive checks over bytes and sextets, run by computation. *)
Definition range256 : list Z := map Z.of_nat (seq 0 256).
Definition range64 : list Z := map Z.of_nat (seq 0 64).

Definition check2 (P : Z -> Z -> bool) : bool :=
  forallb (fun x => forallb (P x) range256) range256.

Definition in64 (s : Z) : bool := (0 <=? s) && (s <? 64).

Definition quad_ok_12 (x1 x2 : Z) : bool :=
  in64 (sextet1 x1) && in64 (sextet2 x1 x2)
  && ((Z.lor (Z.shiftl (sextet1 x1) 2) (Z.shiftr (sextet2 x1 x2) 4)) mod 256
      =? x1)
  && (Z.land (sextet2 x1 x2) 15 =? Z.shiftr x2 4).

Definition quad_ok_23 (x2 x3 : Z) : bool :=
  in64 (sextet3 x2 x3) && in64 (sextet4 x3)
  && ((Z.lor (Z.shiftl (Z.shiftr x2 4) 4) (Z.shiftr (sextet3 x2 x3) 2))
        mod 256 =? x2)
  && (Z.land (sextet3 x2 x3) 3 =? Z.shiftr x3 6)
  && ((Z.lor (Z.shiftl (Z.shiftr x3 6) 6) (sextet4 x3)) mod 256 =? x3).

End Base64.

Import Base64.

(** ** [qwen-sample/omni_realtime_client.py] *)

Module OmniRealtimeClient.

(** What the client does to the outside, in program order. [WsSend] is
    [self.ws.send(json.dumps(event))] on an open connection. *)
Inductive effect :=
| Print (text : string) (args : list json)
| PrintExn (text : string) (e : exn)
| WsSend (event : dict)
| OnTextDelta (delta : json)
| OnAudioDelta (audio_bytes : bytes)
| OnInputTranscript (transcript : json)
| OnOutputTranscript (text : json)
| ExtraEventHandler (event_type : string) (event : json).

(** The callbacks and the state of the current reply. The parameters
    of the connection ([base_url], [api_key], [model], [voice],
    [instructions]) play no part in the dispatch and are left out. *)
Record client := {
  on_text_delta : option (callable json);
  on_audio_delta : option (callable bytes);
  on_input_transcript : option (callable json);
  on_output_transcript : option (callable json);
  extra_event_handlers : gmap string (callable json);
  _current_response_id : json;
  _current_item_id : json;
  _is_responding : bool;
  _print_input_transcript : bool;
  _output_transcript_buffer : string;
}.

(** [__init__]: no current reply, nothing buffered. *)
Definition init
  (on_text : option (callable json)) (on_audio : option (callable bytes))
  (on_input on_output : option (callable json))
  (extra : gmap string (callable json)) : client :=
  {| on_text_delta := on_text;
     on_audio_delta := on_audio;
     on_input_transcript := on_input;
     on_output_transcript := on_output;
     extra_event_handlers := extra;
     _current_response_id := JNull;
     _current_item_id := JNull;
     _is_responding := false;
     _print_input_transcript := true;
     _output_transcript_buffer := "" |}.

Definition set_current_response_id (v : json) (c : client) : client :=
  {| on_text_delta := on_text_delta c;
     on_audio_delta := on_audio_delta c;
     on_input_transcript := on_input_transcript c;
     on_output_transcript := on_output_transcript c;
     extra_event_handlers := extra_event_handlers c;
     _current_response_id := v;
     _current_item_id := _current_item_id c;
     _is_responding := _is_responding c;
     _print_input_transcript := _print_input_transcript c;
     _output_transcript_buffer := _output_transcript_buffer c |}.

Definition set_current_item_id (v : json) (c : client) : client :=
  {| on_text_delta := on_text_delta c;
     on_audio_delta := on_audio_delta c;
     on_input_transcript := on_input_transcript c;
     on_output_transcript := on_output_transcript c;
     extra_event_handlers := extra_event_handlers c;
     _current_response_id := _current_response_id c;
     _current_item_id := v;
     _is_responding := _is_responding c;
     _print_input_transcript := _print_input_transcript c;
     _output_transcript_buffer := _output_transcript_buffer c |}.

Definition set_is_responding (b : bool) (c : client) : client :=
  {| on_text_delta := on_text_delta c;
     on_audio_delta := on_audio_delta c;
     on_input_transcript := on_input_transcript c;
     on_output_transcript := on_output_transcript c;
     extra_event_handlers := extra_event_handlers c;
     _current_response_id := _current_response_id c;
     _current_item_id := _current_item_id c;
     _is_responding := b;
     _print_input_transcript := _print_input_transcript c;
     _output_transcript_buffer := _output_transcript_buffer c |}.

Definition set_print_input_transcript (b : bool) (c : client) : client :=
  {| on_text_delta := on_text_delta c;
     on_audio_delta := on_audio_delta c;
     on_input_transcript := on_input_transcript c;
     on_output_transcript := on_output_transcript c;
     extra_event_handlers := extra_event_handlers c;
     _current_response_id := _current_response_id c;
     _current_item_id := _current_item_id c;
     _is_responding := _is_responding c;
     _print_input_transcript := b;
     _output_transcript_buffer := _output_transcript_buffer c |}.

Definition set_output_transcript_buffer (s : string) (c : client) : client :=
  {| on_text_delta := on_text_delta c;
     on_audio_delta := on_audio_delta c;
     on_input_transcript := on_input_transcript c;
     on_output_transcript := on_output_transcript c;
     extra_event_handlers := extra_event_handlers c;
     _current_response_id := _current_response_id c;
     _current_item_id := _current_item_id c;
     _is_responding := _is_responding c;
     _print_input_transcript := _print_input_transcript c;
     _output_transcript_buffer := s |}.

(** The three assignments that end a reply. *)
Definition reset_response (c : client) : client :=
  set_current_item_id JNull
    (set_current_response_id JNull (set_is_responding false c)).

(** [int(time.time() * 1000)], for the clock reading [now] in seconds. *)
Definition event_id_number (now : Q) : Z :=
  int_of_Q (Qmult now (inject_Z 1000)).

Definition event_id (now : Q) : string :=
  "event_" +:+ str_of_int (event_id_number now).

(** [send_event]: [now] is what [time.time()] returns during the call. *)
Definition send_event (now : Q) (event : dict) : M effect client unit :=
  emit (WsSend (dict_set "event_id" (JStr (event_id now)) event)).

Definition update_session (now : Q) (config : json) : M effect client unit :=
  send_event now [("type", JStr "session.update"); ("session", config)].

Definition stream_audio (now : Q) (audio_chunk : bytes)
  : M effect client unit :=
  let audio_b64 := b64encode audio_chunk in
  send_event now
    [("type", JStr "input_audio_buffer.append"); ("audio", JStr audio_b64)].

Definition commit_audio_buffer (now : Q) : M effect client unit :=
  send_event now [("type", JStr "input_audio_buffer.commit")].

Definition append_image (now : Q) (image_chunk : bytes)
  : M effect client unit :=
  let image_b64 := b64encode image_chunk in
  send_event now
    [("type", JStr "input_image_buffer.append"); ("image", JStr image_b64)].

Definition create_response (now : Q) : M effect client unit :=
  send_event now [("type", JStr "response.create")].

Definition cancel_response (now : Q) : M effect client unit :=
  send_event now [("type", JStr "response.cancel")].

Definition handle_interruption (now : Q) : M effect client unit :=
  c <- get ;;
  if negb (_is_responding c) then ret tt
  else
    (if truthy (_current_response_id c) then cancel_response now
     else ret tt) ;;
    modify reset_response.

(** [event_type in self.extra_event_handlers]: a list or a dict cannot be
    hashed; a key that is not a string is in no [Dict[str, ...]]. *)
Definition find_extra_handler (event_type : json) (c : client)
  : result (option (string * callable json)) :=
  match event_type with
  | JStr s => Ok (match extra_event_handlers c !! s with
                  | Some h => Some (s, h)
                  | None => None
                  end)
  | JArr _ | JObj _ => Raise TypeError
  | _ => Ok None
  end.

(** [self._output_transcript_buffer += delta] *)
Definition str_concat (s : string) (delta : json) : result string :=
  match delta with
  | JStr d => Ok (s +:+ d)
  | _ => Raise TypeError
  end.

(** The body of the [async for] loop of [handle_messages], for one
    parsed frame [event]. *)
Definition handle_message (now : Q) (event : json) : M effect client unit :=
  event_type <- lift (py_get event "type" JNull) ;;
  if str_eq event_type "error" then
    err <- lift (py_getitem event "error") ;;
    emit (Print " Error: " [err])
  else if str_eq event_type "response.created" then
    response <- lift (py_get event "response" (JObj [])) ;;
    id <- lift (py_get response "id" JNull) ;;
    modify (set_current_response_id id) ;;
    modify (set_is_responding true)
  else if str_eq event_type "response.output_item.added" then
    item <- lift (py_get event "item" (JObj [])) ;;
    id <- lift (py_get item "id" JNull) ;;
    modify (set_current_item_id id)
  else if str_eq event_type "response.done" then
    modify (set_is_responding false) ;;
    modify (set_current_response_id JNull) ;;
    modify (set_current_item_id JNull)
  else if str_eq event_type "input_audio_buffer.speech_started" then
    emit (Print "检测到语音开始" []) ;;
    c <- get ;;
    if _is_responding c then
      emit (Print "处理打断" []) ;;
      handle_interruption now
    else ret tt
  else if str_eq event_type "input_audio_buffer.speech_stopped" then
    emit (Print "检测到语音结束" [])
  else if str_eq event_type "response.text.delta" then
    c <- get ;;
    match on_text_delta c with
    | Some f =>
        delta <- lift (py_getitem event "delta") ;;
        call f (OnTextDelta delta) delta
    | None => ret tt
    end
  else if str_eq event_type "response.audio.delta" then
    c <- get ;;
    match on_audio_delta c with
    | Some f =>
        delta <- lift (py_getitem event "delta") ;;
        audio_bytes <- lift (b64decode_value delta) ;;
        call f (OnAudioDelta audio_bytes) audio_bytes
    | None => ret tt
    end
  else if str_eq event_type
            "conversation.item.input_audio_transcription.completed" then
    transcript <- lift (py_get event "transcript" (JStr "")) ;;
    emit (Print "用户: " [transcript]) ;;
    c <- get ;;
    match on_input_transcript c with
    | Some f =>
        call f (OnInputTranscript transcript) transcript ;;
        modify (set_print_input_transcript true)
    | None => ret tt
    end
  else if str_eq event_type "response.audio_transcript.delta" then
    c <- get ;;
    match on_output_transcript c with
    | Some f =>
        delta <- lift (py_get event "delta" (JStr "")) ;;
        if negb (_print_input_transcript c) then
          buffer <- lift (str_concat (_output_transcript_buffer c) delta) ;;
          modify (set_output_transcript_buffer buffer)
        else
          (if negb (String.eqb (_output_transcript_buffer c) "") then
             call f (OnOutputTranscript (JStr (_output_transcript_buffer c)))
               (JStr (_output_transcript_buffer c)) ;;
             modify (set_output_transcript_buffer "")
           else ret tt) ;;
          call f (OnOutputTranscript delta) delta
    | None => ret tt
    end
  else if str_eq event_type "response.audio_transcript.done" then
    transcript <- lift (py_get event "transcript" (JStr "")) ;;
    emit (Print "大模型: " [transcript]) ;;
    modify (set_print_input_transcript false)
  else
    c <- get ;;
    found <- lift (find_extra_handler event_type c) ;;
    match found with
    | Some (name, h) => call h (ExtraEventHandler name event) event
    | None => ret tt
    end.

(** [handle_messages]: the frames the connection delivers, each with
    the clock reading at its dispatch. The [try] encloses the whole
    loop, so the first exception ends it; the frames not dispatched
    are returned. *)
Fixpoint handle_messages (frames : list (Q * json)) (c : client)
  : client * list effect * list (Q * json) :=
  match frames with
  | [] => (c, [], [])
  | (now, event) :: rest =>
      match handle_message now event c with
      | (c1, out1, Ok _) =>
          match handle_messages rest c1 with
          | (c2, out2, pending) => (c2, out1 ++ out2, pending)
          end
      | (c1, out1, Raise ConnectionClosed) =>
          (c1, out1 ++ [Print " Connection closed" []], rest)
      | (c1, out1, Raise e) =>
          (c1, out1 ++ [PrintExn " Error in message handling: " e], rest)
      end
  end.

(** The protocol state the three reply fields stand for. *)
Inductive TurnStatus := Idle | AwaitingResponse | Responding.

Definition status (c : client) : TurnStatus :=
  if _is_responding c then
    match _current_item_id c with
    | JNull => AwaitingResponse
    | _ => Responding
    end
  else Idle.


Definition is_cancel (e : effect) : bool :=
  match e with
  | WsSend ev => match lookup_key "type" ev with
                 | Some t => str_eq t "response.cancel"
                 | None => false
                 end
  | _ => false
  end.

Definition is_print (e : effect) : bool :=
  match e with
  | Print _ _ | PrintExn _ _ => true
  | _ => false
  end.



End OmniRealtimeClient.

(** ** [qwen-sample/vad_mode.py] *)

Module VadMode.

(** *** [AudioPlayer]: a queue of chunks, two flags and a playing thread.

    [written] is what [self.stream.write] has put on the output device,
    oldest first. The methods and one pass of the loop of [_run] are the
    atomic steps of the player. *)
Record AudioPlayer := {
  queue : list (option bytes);
  stop_evt : bool;
  interrupt_evt : bool;
  written : list bytes;
  stream_closed : bool;
  thread_running : bool;
}.

(** [__init__]: the stream is open, the queue empty, the thread started. *)
Definition init : AudioPlayer :=
  {| queue := [];
     stop_evt := false;
     interrupt_evt := false;
     written := [];
     stream_closed := false;
     thread_running := true |}.

(** One pass of [while not self.stop_evt.is_set()]: the test and the
    body. An empty queue is the [queue.Empty] of the timed-out [get];
    [None] breaks out of the loop; a write on a closed stream raises,
    which nothing catches, and ends the thread. *)
Definition _run_step (p : AudioPlayer) : AudioPlayer :=
  if negb (thread_running p) then p
  else if stop_evt p then
    {| queue := queue p; stop_evt := stop_evt p;
       interrupt_evt := interrupt_evt p; written := written p;
       stream_closed := stream_closed p; thread_running := false |}
  else
    match queue p with
    | [] => p
    | None :: q =>
        {| queue := q; stop_evt := stop_evt p;
           interrupt_evt := interrupt_evt p; written := written p;
           stream_closed := stream_closed p; thread_running := false |}
    | Some data :: q =>
        if negb (interrupt_evt p) then
          if stream_closed p then
            {| queue := q; stop_evt := stop_evt p;
               interrupt_evt := interrupt_evt p; written := written p;
               stream_closed := stream_closed p; thread_running := false |}
          else
            {| queue := q; stop_evt := stop_evt p;
               interrupt_evt := interrupt_evt p;
               written := written p ++ [data];
               stream_closed := stream_closed p;
               thread_running := thread_running p |}
        else
          {| queue := q; stop_evt := stop_evt p;
             interrupt_evt := interrupt_evt p; written := written p;
             stream_closed := stream_closed p;
             thread_running := thread_running p |}
    end.

Definition add_audio (data : bytes) (p : AudioPlayer) : AudioPlayer :=
  {| queue := queue p ++ [Some data]; stop_evt := stop_evt p;
     interrupt_evt := interrupt_evt p; written := written p;
     stream_closed := stream_closed p; thread_running := thread_running p |}.

Definition handle_interrupt (p : AudioPlayer) : AudioPlayer :=
  {| queue := []; stop_evt := stop_evt p;
     interrupt_evt := true; written := written p;
     stream_closed := stream_closed p; thread_running := thread_running p |}.

Definition stop (p : AudioPlayer) : AudioPlayer :=
  {| queue := queue p ++ [None]; stop_evt := true;
     interrupt_evt := interrupt_evt p; written := written p;
     stream_closed := true; thread_running := thread_running p |}.

(** The steps of a run of the player, in the order they take effect. *)
Inductive op :=
| AddAudio (data : bytes)
| HandleInterrupt
| Stop
| RunStep.

Definition run_op (o : op) (p : AudioPlayer) : AudioPlayer :=
  match o with
  | AddAudio data => add_audio data p
  | HandleInterrupt => handle_interrupt p
  | Stop => stop p
  | RunStep => _run_step p
  end.

Fixpoint run_ops (ops : list op) (p : AudioPlayer) : AudioPlayer :=
  match ops with
  | [] => p
  | o :: ops' => run_ops ops' (run_op o p)
  end.

(** *** [record_and_send] *)

Inductive effect :=
| Print (text : string)
| MicOpen
| MicRead (audio_data : bytes)
| Client (e : OmniRealtimeClient.effect)
| Sleep
| MicClose.

(** The [while True] loop. Each pass has the clock reading [now] of its
    [send_event] and the outcome of [stream.read(3200)]. *)
Fixpoint record_loop (passes : list (Q * result bytes))
  : M effect OmniRealtimeClient.client unit :=
  match passes with
  | [] => ret tt
  | (now, read) :: rest =>
      audio_data <- lift read ;;
      emit (MicRead audio_data) ;;
      zoom (fun c => c) (fun c _ => c) Client
        (OmniRealtimeClient.stream_audio now audio_data) ;;
      emit Sleep ;;
      record_loop rest
  end.

Definition record_and_send (passes : list (Q * result bytes))
  : M effect OmniRealtimeClient.client unit :=
  emit MicOpen ;;
  emit (Print "开始录音，请讲话...") ;;
  try_finally (record_loop passes) (emit MicClose).

(** A frame of captured audio leaving the pump: the device read, or the
    append event on the connection. *)
Definition is_audio_emission (e : effect) : bool :=
  match e with
  | MicRead _ => true
  | Client (OmniRealtimeClient.WsSend ev) =>
      match lookup_key "type" ev with
      | Some t => str_eq t "input_audio_buffer.append"
      | None => false
      end
  | _ => false
  end.

End VadMode.

(** ** [python/samples/audio_player.py] *)

Module AudioPlayer.

Inductive effect :=
| Print (text : string) (args : list json)
| PrintExn (text : string) (e : exn).

(** [written] is what [self.stream.write] has put on the output device;
    [device_ok] tells whether opening the output stream succeeds. *)
Record AudioPlayer := {
  sample_rate : Z;
  channels : Z;
  sample_width : Z;
  chunk_size : Z;
  audio_queue : list (option bytes);
  is_playing : bool;
  play_thread : bool;
  pyaudio_instance : bool;
  stream : bool;
  written : list bytes;
  device_ok : bool;
}.

(** [__init__] with the module [pyaudio] imported. *)
Definition init (rate chans width chunk : Z) (dev_ok : bool) : AudioPlayer :=
  {| sample_rate := rate; channels := chans; sample_width := width;
     chunk_size := chunk; audio_queue := []; is_playing := false;
     play_thread := false; pyaudio_instance := false; stream := false;
     written := []; device_ok := dev_ok |}.

Definition set_audio_queue (q : list (option bytes)) (p : AudioPlayer)
  : AudioPlayer :=
  {| sample_rate := sample_rate p; channels := channels p;
     sample_width := sample_width p; chunk_size := chunk_size p;
     audio_queue := q; is_playing := is_playing p;
     play_thread := play_thread p; pyaudio_instance := pyaudio_instance p;
     stream := stream p; written := written p; device_ok := device_ok p |}.

Definition set_is_playing (b : bool) (p : AudioPlayer) : AudioPlayer :=
  {| sample_rate := sample_rate p; channels := channels p;
     sample_width := sample_width p; chunk_size := chunk_size p;
     audio_queue := audio_queue p; is_playing := b;
     play_thread := play_thread p; pyaudio_instance := pyaudio_instance p;
     stream := stream p; written := written p; device_ok := device_ok p |}.

Definition set_play_thread (b : bool) (p : AudioPlayer) : AudioPlayer :=
  {| sample_rate := sample_rate p; channels := channels p;
     sample_width := sample_width p; chunk_size := chunk_size p;
     audio_queue := audio_queue p; is_playing := is_playing p;
     play_thread := b; pyaudio_instance := pyaudio_instance p;
     stream := stream p; written := written p; device_ok := device_ok p |}.

Definition set_pyaudio_instance (b : bool) (p : AudioPlayer) : AudioPlayer :=
  {| sample_rate := sample_rate p; channels := channels p;
     sample_width := sample_width p; chunk_size := chunk_size p;
     audio_queue := audio_queue p; is_playing := is_playing p;
     play_thread := play_thread p; pyaudio_instance := b;
     stream := stream p; written := written p; device_ok := device_ok p |}.

Definition set_stream (b : bool) (p : AudioPlayer) : AudioPlayer :=
  {| sample_rate := sample_rate p; channels := channels p;
     sample_width := sample_width p; chunk_size := chunk_size p;
     audio_queue := audio_queue p; is_playing := is_playing p;
     play_thread := play_thread p; pyaudio_instance := pyaudio_instance p;
     stream := b; written := written p; device_ok := device_ok p |}.

Definition set_written (w : list bytes) (p : AudioPlayer) : AudioPlayer :=
  {| sample_rate := sample_rate p; channels := channels p;
     sample_width := sample_width p; chunk_size := chunk_size p;
     audio_queue := audio_queue p; is_playing := is_playing p;
     play_thread := play_thread p; pyaudio_instance := pyaudio_instance p;
     stream := stream p; written := w; device_ok := device_ok p |}.

Definition start : M effect AudioPlayer unit :=
  p <- get ;;
  if is_playing p then ret tt
  else
    modify (set_is_playing true) ;;
    modify (set_pyaudio_instance true) ;;
    (if device_ok p then modify (set_stream true) else raise OSError) ;;
    modify (set_play_thread true) ;;
    emit (Print "音频播放器已启动"
            [JNum (sample_rate p); JNum (channels p);
             JNum (sample_width p * 8)]).

(** One pass of [while self.is_playing] in [_play_loop]: the test and
    the body. The write on an active stream is taken to succeed. *)
Definition _play_loop_step (p : AudioPlayer) : AudioPlayer :=
  if negb (play_thread p) then p
  else if negb (is_playing p) then set_play_thread false p
  else
    match audio_queue p with
    | [] => p
    | None :: q => set_play_thread false (set_audio_queue q p)
    | Some audio_data :: q =>
        if stream p then
          set_written (written p ++ [audio_data]) (set_audio_queue q p)
        else set_audio_queue q p
    end.

Definition play_bytes (audio_bytes : bytes) : M effect AudioPlayer unit :=
  p <- get ;;
  (if negb (is_playing p) then start else ret tt) ;;
  modify (fun p => set_audio_queue (audio_queue p ++ [Some audio_bytes]) p).

Definition play_base64 (base64_audio : json) : M effect AudioPlayer unit :=
  if negb (truthy base64_audio) then ret tt
  else
    try_except
      (audio_bytes <- lift (b64decode_value base64_audio) ;;
       play_bytes audio_bytes)
      (fun e => emit (PrintExn "解码音频数据失败: " e)).

(** [stop]: the joined thread has ended, the queue is drained. *)
Definition stop : M effect AudioPlayer unit :=
  p <- get ;;
  if negb (is_playing p) then ret tt
  else
    modify (set_is_playing false) ;;
    modify (fun p => set_audio_queue (audio_queue p ++ [None]) p) ;;
    modify (set_play_thread false) ;;
    modify (set_stream false) ;;
    modify (set_pyaudio_instance false) ;;
    modify (set_audio_queue []) ;;
    emit (Print "音频播放器已停止" []).

End AudioPlayer.

(** ** [python/samples/message_handler.py] *)

Module MessageHandler.

(** A message handed over by [client.recv()]: a [dict], or an object
    whose attributes are listed in [attrs]. *)
Record message := {
  is_dict : bool;
  attrs : dict;
}.

Inductive effect :=
| Print (text : string) (args : list json)
| PrintExn (text : string) (e : exn)
| PrintMessage (text : string) (m : message)
| Player (e : AudioPlayer.effect)
| CustomHandler (msg_type : string) (m : message)
| ClientSendFunctionOutput (contact_name : json)
| ClientSendJson (payload : dict)
| ClientClose
| Sleep.

(** [shutdown_event] is [None] or an event with its flag;
    [client_closed] is [self.client.closed]. *)
Record MessageHandler := {
  _custom_handlers : gmap string (callable message);
  audio_player : option AudioPlayer.AudioPlayer;
  shutdown_event : option bool;
  client_closed : bool;
}.


Definition set_audio_player (p : option AudioPlayer.AudioPlayer)
  (h : MessageHandler) : MessageHandler :=
  {| _custom_handlers := _custom_handlers h; audio_player := p;
     shutdown_event := shutdown_event h; client_closed := client_closed h |}.

Definition set_shutdown_event (e : option bool) (h : MessageHandler)
  : MessageHandler :=
  {| _custom_handlers := _custom_handlers h; audio_player := audio_player h;
     shutdown_event := e; client_closed := client_closed h |}.

Definition set_client_closed (b : bool) (h : MessageHandler)
  : MessageHandler :=
  {| _custom_handlers := _custom_handlers h; audio_player := audio_player h;
     shutdown_event := shutdown_event h; client_closed := b |}.

(** [__init__]. [pyaudio_available] tells whether [import pyaudio]
    succeeded: without it the constructor of the player raises and the
    handler goes on without a player. *)
Definition init (shutdown : option bool) (enable_audio_playback : bool)
  (audio_sample_rate audio_channels audio_sample_width : Z)
  (pyaudio_available dev_ok : bool) : MessageHandler * list effect :=
  let h := {| _custom_handlers := ∅; audio_player := None;
              shutdown_event := shutdown; client_closed := false |} in
  if enable_audio_playback then
    if pyaudio_available then
      (set_audio_player
         (Some (AudioPlayer.init audio_sample_rate audio_channels
                  audio_sample_width 1024 dev_ok)) h,
       [Print "音频播放功能已启用" []])
    else (h, [PrintExn "初始化音频播放器失败: " ImportError])
  else (h, []).


Definition has_key (k : string) (d : dict) : bool :=
  match lookup_key k d with
  | Some _ => true
  | None => false
  end.

(** [hasattr(message, k)]: a dict has none of the attributes asked for. *)
Definition hasattr (m : message) (k : string) : bool :=
  negb (is_dict m) && has_key k (attrs m).

(** [message.get(k, default)] *)
Definition msg_get (m : message) (k : string) (default : json)
  : result json :=
  if is_dict m then
    Ok (match lookup_key k (attrs m) with Some v => v | None => default end)
  else Raise AttributeError.

(** [message.k] *)
Definition msg_attr (m : message) (k : string) : result json :=
  if is_dict m then Raise AttributeError
  else match lookup_key k (attrs m) with
       | Some v => Ok v
       | None => Raise AttributeError
       end.

(** [x.k] on an attribute of a message. *)
Definition py_getattr (x : json) (k : string) : result json :=
  match x with
  | JObj d => match lookup_key k d with
              | Some v => Ok v
              | None => Raise AttributeError
              end
  | _ => Raise AttributeError
  end.

Definition py_len (x : json) : result Z :=
  match x with
  | JStr s => Ok (Z.of_nat (String.length s))
  | JArr l => Ok (Z.of_nat (List.length l))
  | JObj d => Ok (Z.of_nat (List.length d))
  | _ => Raise TypeError
  end.

(** [message.k if hasattr(message, k) else default] *)
Definition attr_or (m : message) (k : string) (default : json)
  : result json :=
  if hasattr m k then msg_attr m k else Ok default.

Section Handlers.

(** [json.loads] on a string. *)
Variable json_loads : string -> result json.

Definition py_json_loads (x : json) : result json :=
  match x with
  | JStr s => json_loads s
  | _ => Raise TypeError
  end.

Definition _handle_function_call (m : message)
  : M effect MessageHandler unit :=
  emit (Print "函数调用参数完成消息" []) ;;
  response_id <- lift (if is_dict m
                       then msg_get m "response_id" (JStr "Unknown")
                       else attr_or m "response_id" (JStr "Unknown")) ;;
  name <- lift (if is_dict m then msg_get m "name" JNull
                else attr_or m "name" JNull) ;;
  arguments <- lift (if is_dict m then msg_get m "arguments" JNull
                     else attr_or m "arguments" JNull) ;;
  emit (Print "  Response Id: " [response_id]) ;;
  (if truthy name then emit (Print "  Function Name: " [name]) else ret tt) ;;
  emit (Print "  Arguments: "
          [if truthy arguments then arguments else JStr "None"]) ;;
  if str_eq name "phoneCall" then
    try_except
      (args <- lift (if truthy arguments then py_json_loads arguments
                     else Ok (JObj [])) ;;
       contact <- lift (py_get args "contact_name" (JStr "未知姓名")) ;;
       emit Sleep ;;
       emit (ClientSendFunctionOutput contact) ;;
       emit (ClientSendJson [("type", JStr "response.create")]))
      (fun e =>
         match e with
         | JSONDecodeError => emit (PrintExn "解析函数调用参数失败: " e)
         | _ => raise e
         end)
  else ret tt.

Definition _handle_session_messages (m : message) (msg_type : string)
  : M effect MessageHandler unit :=
  if String.eqb msg_type "session.created" then
    emit (Print "会话创建消息" []) ;;
    if is_dict m then
      session <- lift (msg_get m "session" (JObj [])) ;;
      id <- lift (py_get session "id" (JStr "Unknown")) ;;
      emit (Print "  Session Id: " [id])
    else if hasattr m "session" then
      session <- lift (msg_attr m "session") ;;
      id <- lift (py_getattr session "id") ;;
      emit (Print "  Session Id: " [id])
    else ret tt
  else if String.eqb msg_type "session.updated" then
    emit (Print "会话更新消息" []) ;;
    if is_dict m then
      session <- lift (msg_get m "session" (JObj [])) ;;
      emit (Print "updated session: " [session])
    else if hasattr m "session" then
      session <- lift (msg_attr m "session") ;;
      emit (Print "updated session: " [session])
    else ret tt
  else if String.eqb msg_type "error" then
    emit (Print "错误消息" []) ;;
    if is_dict m then
      err <- lift (msg_get m "error" (JStr "Unknown error")) ;;
      emit (Print "  Error: " [err])
    else if hasattr m "error" then
      err <- lift (msg_attr m "error") ;;
      emit (Print "  Error: " [err])
    else ret tt
  else ret tt.

Definition _handle_audio_input_messages (m : message) (msg_type : string)
  : M effect MessageHandler unit :=
  if String.eqb msg_type "input_audio_buffer.committed" then
    emit (Print "音频缓冲区提交消息" []) ;;
    if hasattr m "item_id" then
      item_id <- lift (msg_attr m "item_id") ;;
      emit (Print "  Item Id: " [item_id])
    else ret tt
  else if String.eqb msg_type "input_audio_buffer.speech_started" then
    emit (Print "语音开始消息" [])
  else if String.eqb msg_type "input_audio_buffer.speech_stopped" then
    emit (Print "语音结束消息" [])
  else ret tt.

Definition _handle_conversation_messages (m : message) (msg_type : string)
  : M effect MessageHandler unit :=
  if String.eqb msg_type "conversation.created" then
    emit (Print "会话项目创建消息" [])
  else if String.eqb msg_type
            "conversation.input_audio_transcription.completed" then
    emit (Print "输入音频转写完成消息" []) ;;
    if is_dict m then
      transcript <- lift (msg_get m "transcript" (JStr "N/A")) ;;
      emit (Print "  Transcript: " [transcript])
    else if hasattr m "transcript" then
      transcript <- lift (msg_attr m "transcript") ;;
      emit (Print "  Transcript: " [transcript])
    else ret tt
  else ret tt.

(** [self.audio_player.play_base64(delta)] on the player [p] of the
    handler. *)
Definition on_player {A} (p : AudioPlayer.AudioPlayer)
  (c : M AudioPlayer.effect AudioPlayer.AudioPlayer A)
  : M effect MessageHandler A :=
  fun h =>
    match c p with
    | (p1, out, r) => (set_audio_player (Some p1) h, map Player out, r)
    end.

Definition print_response_id_and_status (m : message)
  : M effect MessageHandler unit :=
  if is_dict m then
    response <- lift (msg_get m "response" (JObj [])) ;;
    id <- lift (py_get response "id" (JStr "Unknown")) ;;
    emit (Print "  Response Id: " [id]) ;;
    status <- lift (py_get response "status" (JStr "Unknown")) ;;
    emit (Print "  Status: " [status])
  else if hasattr m "response" then
    response <- lift (msg_attr m "response") ;;
    id <- lift (py_getattr response "id") ;;
    emit (Print "  Response Id: " [id]) ;;
    status <- lift (py_getattr response "status") ;;
    emit (Print "  Status: " [status])
  else ret tt.

Definition _handle_response_messages (m : message) (msg_type : string)
  : M effect MessageHandler unit :=
  if String.eqb msg_type "response.created" then
    emit (Print "响应创建消息" []) ;;
    if is_dict m then
      response <- lift (msg_get m "response" (JObj [])) ;;
      id <- lift (py_get response "id" (JStr "Unknown")) ;;
      emit (Print "  Response Id: " [id])
    else if hasattr m "response" then
      response <- lift (msg_attr m "response") ;;
      id <- lift (py_getattr response "id") ;;
      emit (Print "  Response Id: " [id])
    else ret tt
  else if String.eqb msg_type "response.done" then
    emit (Print "响应完成消息" []) ;;
    print_response_id_and_status m
  else if String.eqb msg_type "response.audio.delta" then
    emit (Print "模型音频增量消息" []) ;;
    delta <-
      (if is_dict m then
         response_id <- lift (msg_get m "response_id" (JStr "Unknown")) ;;
         emit (Print "  Response Id: " [response_id]) ;;
         delta <- lift (msg_get m "delta" JNull) ;;
         (if truthy delta then
            n <- lift (py_len delta) ;;
            emit (Print "  Delta Length: " [JNum n])
          else emit (Print "  Delta: None" [])) ;;
         ret delta
       else
         response_id <- lift (attr_or m "response_id" (JStr "Unknown")) ;;
         emit (Print "  Response Id: " [response_id]) ;;
         d <- lift (attr_or m "delta" JNull) ;;
         if truthy d then
           n <- lift (py_len d) ;;
           emit (Print "  Delta Length: " [JNum n]) ;;
           ret d
         else
           emit (Print "  Delta: None" []) ;;
           ret JNull) ;;
    h <- get ;;
    match audio_player h with
    | Some p =>
        if truthy delta then
          try_except (on_player p (AudioPlayer.play_base64 delta))
            (fun e => emit (PrintExn "播放音频失败: " e))
        else ret tt
    | None => ret tt
    end
  else if String.eqb msg_type "response.audio.done" then
    emit (Print "模型音频完成消息" [])
  else if String.eqb msg_type "response.audio_transcript.delta" then
    emit (Print "模型音频文本增量消息" []) ;;
    if is_dict m then
      response_id <- lift (msg_get m "response_id" (JStr "Unknown")) ;;
      emit (Print "  Response Id: " [response_id]) ;;
      delta <- lift (msg_get m "delta" (JStr "None")) ;;
      emit (Print "  Delta: " [delta])
    else
      response_id <- lift (attr_or m "response_id" (JStr "Unknown")) ;;
      emit (Print "  Response Id: " [response_id]) ;;
      d <- lift (attr_or m "delta" JNull) ;;
      emit (Print "  Delta: " [if truthy d then d else JStr "None"])
  else if String.eqb msg_type "response.audio_transcript.done" then
    emit (Print "模型音频文本完成消息" [])
  else ret tt.

(** [message.type if hasattr(message, "type") else message.get("type")] *)
Definition message_type (m : message) : result json :=
  if hasattr m "type" then msg_attr m "type" else msg_get m "type" JNull.

(** [msg_type in self._custom_handlers] *)
Definition find_custom_handler (msg_type : json) (h : MessageHandler)
  : result (option (string * callable message)) :=
  match msg_type with
  | JStr s => Ok (match _custom_handlers h !! s with
                  | Some f => Some (s, f)
                  | None => None
                  end)
  | JArr _ | JObj _ => Raise TypeError
  | _ => Ok None
  end.

(** The body of the inner [try] of [receive_messages], for one message
    that is not [None]. *)
Definition dispatch (m : message) : M effect MessageHandler unit :=
  msg_type <- lift (message_type m) ;;
  match msg_type with
  | JNull => emit (PrintMessage "收到未知类型的消息:" m)
  | _ =>
      h <- get ;;
      found <- lift (find_custom_handler msg_type h) ;;
      match found with
      | Some (name, f) => call f (CustomHandler name m) m
      | None =>
          match msg_type with
          | JStr t =>
              if String.prefix "session." t || String.eqb t "error" then
                _handle_session_messages m t
              else if String.prefix "input_audio_buffer." t then
                _handle_audio_input_messages m t
              else if String.prefix "conversation." t then
                _handle_conversation_messages m t
              else if String.prefix "response." t then
                if String.eqb t "response.function_call_arguments.done"
                then _handle_function_call m
                else _handle_response_messages m t
              else if String.eqb t "heartbeat" then
                emit (Print "心跳消息" [])
              else
                emit (Print "未处理的消息类型: " [msg_type]) ;;
                emit (PrintMessage "" m)
          | _ => raise AttributeError
          end
      end
  end.

(** What reaches the loop of [receive_messages] from outside, in order:
    the outcome of a [client.recv()] ([None], a message, an exception,
    the time-out being [TimeoutError]), the shutdown event being set,
    the connection being closed. *)
Inductive inbound :=
| Recv (m : option message)
| RecvRaises (e : exn)
| ShutdownSet
| ConnectionLost.

Inductive loop_exit := StillReceiving | Exited.

Definition shutdown_is_set (h : MessageHandler) : bool :=
  match shutdown_event h with
  | Some b => b
  | None => false
  end.

(** [except Exception as e] of the loop: the message is printed unless
    the shutdown event is set. *)
Definition report_error (e : exn) (h : MessageHandler) : list effect :=
  if shutdown_is_set h then []
  else [PrintExn "接收消息时发生错误: " e].

(** The [while not self.client.closed] loop. The inputs not consumed
    when the loop is left are returned. *)
Fixpoint receive_loop (inputs : list inbound) (h : MessageHandler)
  : MessageHandler * list effect * loop_exit * list inbound :=
  if client_closed h then (h, [], Exited, inputs)
  else if shutdown_is_set h then
    (h, [Print "正在停止消息接收..." []], Exited, inputs)
  else
    match inputs with
    | [] => (h, [], StillReceiving, [])
    | ShutdownSet :: rest =>
        receive_loop rest
          (match shutdown_event h with
           | Some _ => set_shutdown_event (Some true) h
           | None => h
           end)
    | ConnectionLost :: rest => receive_loop rest (set_client_closed true h)
    | RecvRaises TimeoutError :: rest => receive_loop rest h
    | RecvRaises e :: rest => (h, report_error e h, Exited, rest)
    | Recv None :: rest => receive_loop rest h
    | Recv (Some m) :: rest =>
        match dispatch m h with
        | (h1, out1, Ok _) | (h1, out1, Raise TimeoutError) =>
            match receive_loop rest h1 with
            | (h2, out2, ex, pending) => (h2, out1 ++ out2, ex, pending)
            end
        | (h1, out1, Raise e) =>
            (h1, out1 ++ report_error e h1, Exited, rest)
        end
    end.

(** The [finally] of [receive_messages]. *)
Definition finish (h : MessageHandler) : MessageHandler * list effect :=
  let '(h1, out1) :=
    match audio_player h with
    | Some p =>
        match AudioPlayer.stop p with
        | (p1, out, _) => (set_audio_player (Some p1) h, map Player out)
        end
    | None => (h, [])
    end in
  if client_closed h1 then (h1, out1)
  else (set_client_closed true h1,
        out1 ++ [ClientClose; Print "WebSocket连接已关闭" []]).

Definition receive_messages (inputs : list inbound) (h : MessageHandler)
  : MessageHandler * list effect * loop_exit * list inbound :=
  match receive_loop inputs h with
  | (h1, out1, Exited, pending) =>
      let '(h2, out2) := finish h1 in (h2, out1 ++ out2, Exited, pending)
  | r => r
  end.

End Handlers.


Definition is_print (e : effect) : bool :=
  match e with
  | Print _ _ | PrintExn _ _ | PrintMessage _ _ => true
  | _ => false
  end.

End MessageHandler.

(** ** [python/samples/low_level_sample_server_vad.py] *)

Module ServerVad.

(** [InputAudioBufferAppendMessage(audio=..., client_timestamp=...)] *)
Record InputAudioBufferAppendMessage := {
  audio : string;
  client_timestamp : Z;
}.

Inductive effect :=
| Print (text : string)
| PrintExn (text : string) (e : exn)
| PrintStats
| SessionReadyWaited
| MicOpen
| PlaybackOpen
| MicRead (packet_data : bytes)
| PlaybackWrite (packet_data : bytes)
| ClientSend (message : InputAudioBufferAppendMessage)
| MicClose
| PlaybackClose
| Terminate.

(** What the coroutine finds each time it runs: the flags of the two
    events, the loop clock in seconds, the outcome of the device read
    and the exception, if any, of [client.send]. *)
Record pass := {
  session_ready_is_set : bool;
  shutdown_is_set : bool;
  loop_time : Q;
  read : result bytes;
  send : option exn;
}.

(** [await session_ready_event.wait()]: suspended until it runs with the
    flag set; [None] when that never happens. *)
Fixpoint wait (passes : list pass) : option (list pass) :=
  match passes with
  | [] => None
  | p :: rest => if session_ready_is_set p then Some rest else wait rest
  end.

(** The [while not shutdown_event.is_set()] loop; [samples] is
    [len(latency_stats.mic_to_send_latencies)]. *)
Fixpoint mic_loop (enable_mic_playback : bool) (samples : nat)
  (passes : list pass) : list effect :=
  match passes with
  | [] => []
  | p :: rest =>
      if shutdown_is_set p then []
      else
        match read p with
        | Raise e => [PrintExn "发送失败: " e]
        | Ok packet_data =>
            MicRead packet_data
            :: (if enable_mic_playback then [PlaybackWrite packet_data]
                else [])
            ++ match send p with
               | Some e => [PrintExn "发送失败: " e]
               | None =>
                   ClientSend
                     {| audio := b64encode packet_data;
                        client_timestamp :=
                          int_of_Q (Qmult (loop_time p) (inject_Z 1000)) |}
                   :: (if (Nat.modulo (S samples) 100 =? 0)%nat
                       then [PrintStats] else [])
                   ++ mic_loop enable_mic_playback (S samples) rest
               end
        end
  end.

(** After the wait: the announcements, the devices, the loop and the
    [finally]. [shutdown_event] tells whether the global is an event or
    still [None]; [mic_ok] and [playback_ok] whether the streams open. *)
Definition capture (shutdown_event enable_mic_playback mic_ok playback_ok
  : bool) (samples : nat) (passes : list pass) : list effect :=
  [Print "音频信息: 格式=PCM16, 采样率=16000Hz, 声道数=1, 位深=16位";
   Print "数据包大小: 100ms";
   Print "开始从麦克风录音，按 Ctrl+C 停止...";
   Print "提示: 说话后停顿 0.5 秒以触发响应"]
  ++ (if enable_mic_playback
      then [Print "⚠️  麦克风回放已启用 - 你将听到自己的声音（可能产生回声）"]
      else [])
  ++ (if mic_ok then
        MicOpen
        :: (if enable_mic_playback then
              if playback_ok then
                PlaybackOpen
                :: (if shutdown_event
                    then mic_loop enable_mic_playback samples passes
                    else [PrintExn "音频处理失败: " AttributeError])
                ++ [MicClose; PlaybackClose]
              else [PrintExn "音频处理失败: " OSError; MicClose]
            else
              (if shutdown_event
               then mic_loop enable_mic_playback samples passes
               else [PrintExn "音频处理失败: " AttributeError])
              ++ [MicClose])
      else [PrintExn "音频处理失败: " OSError])
  ++ [Terminate; Print "麦克风已关闭"].

(** [send_audio_from_mic]. [session_ready_event] tells whether the
    global is an event ([if session_ready_event:]) or still [None]. *)
Definition send_audio_from_mic (session_ready_event shutdown_event
  enable_mic_playback mic_ok playback_ok : bool) (samples : nat)
  (passes : list pass) : list effect :=
  if session_ready_event then
    Print "⏳ 等待会话配置完成..."
    :: match wait passes with
       | None => []
       | Some rest =>
           SessionReadyWaited
           :: Print "✅ 会话已就绪，开始录音"
           :: capture shutdown_event enable_mic_playback mic_ok playback_ok
                samples rest
       end
  else
    capture shutdown_event enable_mic_playback mic_ok playback_ok
      samples passes.

Definition is_audio_emission (e : effect) : bool :=
  match e with
  | MicRead _ | ClientSend _ => true
  | _ => false
  end.

Definition is_session_ready (e : effect) : bool :=
  match e with
  | SessionReadyWaited => true
  | _ => false
  end.

End ServerVad.

(** ** Traces of a capture loop *)

Module Capture.

(** No captured audio leaves the loop before the session-ready wait has
    returned: scanning the trace, the wait comes before the first read
    or append. *)
Fixpoint gated {E} (is_ready is_audio : E -> bool) (trace : list E) : bool :=
  match trace with
  | [] => true
  | e :: trace' =>
      if is_ready e then true
      else if is_audio e then false
      else gated is_ready is_audio trace'
  end.

End Capture.

(** ** [python/samples/low_level_sample_server_vad_radio.py] *)

Module ServerVadRadio.

(** A WAV file opened with [wave.open]: its parameters and the bytes of
    its data chunk. *)
Record wav := {
  nchannels : positive;
  sampwidth : positive;
  framerate : Z;
  data : bytes;
}.

(** [packet_samples = int(target_frame_rate * packet_ms / 1000)] *)
Definition packet_samples : nat := 1600.

(** The bytes [wf.readframes(packet_samples)] asks for. *)
Definition packet_bytes (w : wav) : nat :=
  (packet_samples * (Pos.to_nat (nchannels w) * Pos.to_nat (sampwidth w)))%nat.

Inductive effect :=
| Print (text : string)
| PrintInfo (text : string) (values : list Z)
| PrintExn (text : string) (e : exn)
| PrintStats
| SessionReadyWaited
| PlaybackOpen
| FileRead (packet_data : bytes)
| FileDone
| PlaybackWrite (packet_data : bytes)
| ClientSend (message : ServerVad.InputAudioBufferAppendMessage)
| Sleep
| PlaybackClose
| Terminate.

(** What the coroutine finds each time it runs: the flags of the two
    events, the loop clock in seconds, the exception, if any, of
    [client.send] and the shutdown flag as the [except] clause then
    finds it. *)
Record pass := {
  session_ready_is_set : bool;
  shutdown_is_set : bool;
  loop_time : Q;
  send : option exn;
  shutdown_after_send : bool;
}.

Fixpoint wait (passes : list pass) : option (list pass) :=
  match passes with
  | [] => None
  | p :: rest => if session_ready_is_set p then Some rest else wait rest
  end.

(** The [while not shutdown_event.is_set()] loop over the file:
    [remaining] is what [wf] has not yet handed out, [size] the bytes
    one [readframes] asks for. *)
Fixpoint file_loop (enable_playback : bool) (size samples : nat)
  (remaining : bytes) (passes : list pass) : list effect :=
  match passes with
  | [] => []
  | p :: rest =>
      if shutdown_is_set p then []
      else
        let packet_data := firstn size remaining in
        match packet_data with
        | [] => [FileDone]
        | _ =>
            FileRead packet_data
            :: (if enable_playback then [PlaybackWrite packet_data] else [])
            ++ match send p with
               | Some e =>
                   if shutdown_after_send p then []
                   else [PrintExn "发送失败: " e]
               | None =>
                   ClientSend
                     {| ServerVad.audio := b64encode packet_data;
                        ServerVad.client_timestamp :=
                          int_of_Q (Qmult (loop_time p) (inject_Z 1000)) |}
                   :: (if (Nat.modulo (S samples) 100 =? 0)%nat
                       then [PrintStats] else [])
                   ++ Sleep
                   :: file_loop enable_playback size (S samples)
                        (skipn size remaining) rest
               end
        end
  end.

(** The warning printed when the file is not 16 kHz mono 16 bit. *)
Definition format_mismatch (w : wav) : bool :=
  negb ((nchannels w =? 1)%positive && (sampwidth w =? 2)%positive
        && (framerate w =? 16000)).

(** After the wait, with the file found at its path: [opened] is the
    outcome of [wave.open], [playback_ok] tells whether the output
    stream opens. *)
Definition send_file (shutdown_event enable_playback playback_ok : bool)
  (opened : result wav) (samples : nat) (passes : list pass) : list effect :=
  match opened with
  | Raise e => [PrintExn "音频处理失败: " e]
  | Ok w =>
      [Print "📁 音频文件";
       PrintInfo "原始音频信息"
         [Zpos (sampwidth w) * 8; framerate w; Zpos (nchannels w)];
       Print "目标音频信息: 格式=PCM16, 采样率=16000Hz, 声道数=1, 位深=16位";
       Print "数据包大小: 100ms";
       Print "开始流式发送音频文件，按 Ctrl+C 停止..."]
      ++ (if format_mismatch w then
            [Print "⚠️  警告: 音频格式不匹配，需要转换";
             Print "   期望: 1声道, 16位, 16000Hz";
             PrintInfo "   实际"
               [Zpos (nchannels w); Zpos (sampwidth w) * 8; framerate w]]
          else [])
      ++ (if enable_playback then
            if playback_ok then
              PlaybackOpen :: Print "⚠️  音频回放已启用"
              :: (if shutdown_event
                  then file_loop enable_playback (packet_bytes w) samples
                         (data w) passes
                  else [PrintExn "音频处理失败: " AttributeError])
              ++ [PlaybackClose]
            else [PrintExn "音频处理失败: " OSError]
          else
            if shutdown_event
            then file_loop enable_playback (packet_bytes w) samples
                   (data w) passes
            else [PrintExn "音频处理失败: " AttributeError])
  end
  ++ [Terminate; Print "音频文件发送已关闭"].

(** After the wait: [exists] is [os.path.exists(audio_file_path)]. *)
Definition after_wait (shutdown_event enable_playback playback_ok
  file_exists : bool) (opened : result wav) (samples : nat)
  (passes : list pass) : list effect :=
  if file_exists then
    send_file shutdown_event enable_playback playback_ok opened samples passes
  else [Print "❌ 错误: 音频文件不存在"].

Definition send_audio_from_file (session_ready_event shutdown_event
  enable_playback playback_ok file_exists : bool) (opened : result wav)
  (samples : nat) (passes : list pass) : list effect :=
  if session_ready_event then
    Print "⏳ 等待会话配置完成..."
    :: match wait passes with
       | None => []
       | Some rest =>
           SessionReadyWaited
           :: Print "✅ 会话已就绪，开始发送音频文件"
           :: after_wait shutdown_event enable_playback playback_ok
                file_exists opened samples rest
       end
  else
    after_wait shutdown_event enable_playback playback_ok file_exists
      opened samples passes.

Definition is_audio_emission (e : effect) : bool :=
  match e with
  | FileRead _ | ClientSend _ => true
  | _ => false
  end.

Definition is_session_ready (e : effect) : bool :=
  match e with
  | SessionReadyWaited => true
  | _ => false
  end.

Definition is_file_done (e : effect) : bool :=
  match e with
  | FileDone => true
  | _ => false
  end.

(** The [audio] fields of the messages sent, in sending order. *)
Fixpoint sent_audio (trace : list effect) : list string :=
  match trace with
  | [] => []
  | ClientSend m :: trace' => ServerVad.audio m :: sent_audio trace'
  | _ :: trace' => sent_audio trace'
  end.

End ServerVadRadio.

(** ** What a run shows *)

Module Run.

(** *** Of the client of [omni_realtime_client.py] *)

(** The frames [handle_messages] handles without an exception, counted
    from the first one. *)
Fixpoint handled_count (frames : list (Q * json))
  (c : OmniRealtimeClient.client) : nat :=
  match frames with
  | [] => 0
  | (now, event) :: rest =>
      match OmniRealtimeClient.handle_message now event c with
      | (c1, _, Ok _) => S (handled_count rest c1)
      | _ => 0
      end
  end.

Definition is_ws_send (e : OmniRealtimeClient.effect) : bool :=
  match e with
  | OmniRealtimeClient.WsSend _ => true
  | _ => false
  end.

Definition is_output_transcript (e : OmniRealtimeClient.effect) : bool :=
  match e with
  | OmniRealtimeClient.OnOutputTranscript _ => true
  | _ => false
  end.

(** The text of a value, when it is a string. *)
Definition text_of (x : json) : string :=
  match x with
  | JStr s => s
  | _ => ""
  end.

(** What [on_output_transcript] has been given, joined in call order. *)
Fixpoint delivered_output (out : list OmniRealtimeClient.effect) : string :=
  match out with
  | [] => ""
  | OmniRealtimeClient.OnOutputTranscript t :: out' =>
      text_of t +:+ delivered_output out'
  | _ :: out' => delivered_output out'
  end.

(** The text a frame adds to the output transcript: its ["delta"] when
    it is a [response.audio_transcript.delta] frame. *)
Definition transcript_delta (event : json) : string :=
  match py_get event "type" JNull with
  | Ok t =>
      if str_eq t "response.audio_transcript.delta" then
        match py_get event "delta" (JStr "") with
        | Ok d => text_of d
        | Raise _ => ""
        end
      else ""
  | Raise _ => ""
  end.

Fixpoint received_output (frames : list (Q * json)) : string :=
  match frames with
  | [] => ""
  | (_, event) :: rest => transcript_delta event +:+ received_output rest
  end.

(** *** Of the player of [audio_player.py] *)

Fixpoint play_steps (n : nat) (p : AudioPlayer.AudioPlayer)
  : AudioPlayer.AudioPlayer :=
  match n with
  | O => p
  | S n' => play_steps n' (AudioPlayer._play_loop_step p)
  end.

(** The calls and steps of a run of the player, in the order they take
    effect; what they print is left aside. *)
Inductive player_op :=
| PlayBase64 (base64_audio : json)
| PlayBytes (audio_bytes : bytes)
| Start
| StopPlayer
| PlayStep.

Definition after {A} (r : AudioPlayer.AudioPlayer
                          * list AudioPlayer.effect * result A)
  : AudioPlayer.AudioPlayer := fst (fst r).

Definition player_op_run (o : player_op) (p : AudioPlayer.AudioPlayer)
  : AudioPlayer.AudioPlayer :=
  match o with
  | PlayBase64 x => after (AudioPlayer.play_base64 x p)
  | PlayBytes b => after (AudioPlayer.play_bytes b p)
  | Start => after (AudioPlayer.start p)
  | StopPlayer => after (AudioPlayer.stop p)
  | PlayStep => AudioPlayer._play_loop_step p
  end.

Fixpoint player_run (ops : list player_op) (p : AudioPlayer.AudioPlayer)
  : AudioPlayer.AudioPlayer :=
  match ops with
  | [] => p
  | o :: ops' => player_run ops' (player_op_run o p)
  end.

(** A producer and a consumer taking turns on the player: [Some b] is
    a call [play_bytes b], [None] a pass of the play loop. *)
Definition move_op (m : option bytes) : player_op :=
  match m with
  | Some b => PlayBytes b
  | None => PlayStep
  end.

(** The chunks in a queue, or enqueued by a list of moves, in order. *)
Fixpoint chunks_of (q : list (option bytes)) : list bytes :=
  match q with
  | [] => []
  | Some b :: q' => b :: chunks_of q'
  | None :: q' => chunks_of q'
  end.

(** The player is idle on a device that works, or playing with its
    thread and its stream, its queue holding chunks only. *)
Definition healthy (p : AudioPlayer.AudioPlayer) : Prop :=
  AudioPlayer.device_ok p = true /\
  ((AudioPlayer.is_playing p = false /\ AudioPlayer.play_thread p = false
    /\ AudioPlayer.audio_queue p = []) \/
   (AudioPlayer.is_playing p = true /\ AudioPlayer.play_thread p = true
    /\ AudioPlayer.stream p = true
    /\ Forall (fun x => x <> None) (AudioPlayer.audio_queue p))).

(** *** Of the player of [vad_mode.py] *)

(** A producer and the play thread taking turns: [Some b] is a call
    [add_audio b], [None] a pass of the loop of [_run]. *)
Definition vad_move_op (m : option bytes) : VadMode.op :=
  match m with
  | Some b => VadMode.AddAudio b
  | None => VadMode.RunStep
  end.

(** Running, neither stopped nor interrupted, the stream open, chunks
    only in the queue. *)
Definition vad_playing (p : VadMode.AudioPlayer) : Prop :=
  VadMode.thread_running p = true /\ VadMode.stop_evt p = false /\
  VadMode.interrupt_evt p = false /\ VadMode.stream_closed p = false /\
  Forall (fun x => x <> None) (VadMode.queue p).

(** *** Of the capture loops *)




Definition count {E} (f : E -> bool) (trace : list E) : nat :=
  List.length (List.filter f trace).

Fixpoint mic_reads (trace : list ServerVad.effect) : list bytes :=
  match trace with
  | [] => []
  | ServerVad.MicRead d :: trace' => d :: mic_reads trace'
  | _ :: trace' => mic_reads trace'
  end.

Fixpoint mic_sent (trace : list ServerVad.effect) : list string :=
  match trace with
  | [] => []
  | ServerVad.ClientSend m :: trace' => ServerVad.audio m :: mic_sent trace'
  | _ :: trace' => mic_sent trace'
  end.

Fixpoint mic_playback (trace : list ServerVad.effect) : list bytes :=
  match trace with
  | [] => []
  | ServerVad.PlaybackWrite d :: trace' => d :: mic_playback trace'
  | _ :: trace' => mic_playback trace'
  end.

Definition is_mic_open (e : ServerVad.effect) : bool :=
  match e with ServerVad.MicOpen => true | _ => false end.

Definition is_mic_close (e : ServerVad.effect) : bool :=
  match e with ServerVad.MicClose => true | _ => false end.

Definition is_playback_open (e : ServerVad.effect) : bool :=
  match e with ServerVad.PlaybackOpen => true | _ => false end.

Definition is_playback_close (e : ServerVad.effect) : bool :=
  match e with ServerVad.PlaybackClose => true | _ => false end.



End Run.

(** * Properties *)

(** ** Base64: decoding undoes encoding *)

Section Base64Facts.

Lemma in_range_seq (n : nat) (x : Z) :
  0 <= x < Z.of_nat n -> In x (map Z.of_nat (seq 0 n)).
Proof.
  intros Hx. apply in_map_iff. exists (Z.to_nat x). split; [lia|].
  apply in_seq. lia.
Qed.

Lemma forallb_range256 (P : Z -> bool) :
  forallb P range256 = true -> forall x, 0 <= x < 256 -> P x = true.
Proof.
  intros H x Hx. rewrite forallb_forall in H. apply H.
  apply (in_range_seq 256). lia.
Qed.

Lemma forallb_range64 (P : Z -> bool) :
  forallb P range64 = true -> forall x, 0 <= x < 64 -> P x = true.
Proof.
  intros H x Hx. rewrite forallb_forall in H. apply H.
  apply (in_range_seq 64). lia.
Qed.

Lemma check2_sound (P : Z -> Z -> bool) :
  check2 P = true ->
  forall x y, 0 <= x < 256 -> 0 <= y < 256 -> P x y = true.
Proof.
  intros H x y Hx Hy. unfold check2 in H.
  pose proof (forallb_range256 _ H x Hx) as H'. cbv beta in H'.
  exact (forallb_range256 _ H' y Hy).
Qed.

Lemma byte_to_Z_range (b : byte) : 0 <= byte_to_Z b < 256.
Proof.
  unfold byte_to_Z. pose proof (Byte.to_N_bounded b). lia.
Qed.

Lemma byte_of_to_Z (b : byte) : byte_of_Z (byte_to_Z b) = b.
Proof.
  unfold byte_of_Z. rewrite Z.mod_small by apply byte_to_Z_range.
  unfold byte_to_Z. rewrite N2Z.id, Byte.of_to_N. reflexivity.
Qed.

Lemma byte_of_Z_eq (z : Z) (b : byte) :
  z mod 256 = byte_to_Z b -> byte_of_Z z = b.
Proof.
  intros H. transitivity (byte_of_Z (byte_to_Z b)); [|apply byte_of_to_Z].
  unfold byte_of_Z. rewrite H.
  rewrite Z.mod_small by apply byte_to_Z_range. reflexivity.
Qed.

(** The alphabet is read back to the sextet it stands for, and no letter
    of it is the pad. *)
Lemma a2b_b2a (i : Z) :
  0 <= i < 64 ->
  table_a2b_base64 (b2a i) = Some i /\ Ascii.eqb (b2a i) BASE64_PAD = false.
Proof.
  intros Hi.
  assert (H : (match table_a2b_base64 (b2a i) with
               | Some j => j =? i
               | None => false
               end
               && negb (Ascii.eqb (b2a i) BASE64_PAD))%bool = true).
  { revert i Hi. apply forallb_range64. vm_compute. reflexivity. }
  apply andb_prop in H. destruct H as [H1 H2].
  destruct (table_a2b_base64 (b2a i)) as [j|]; [|discriminate].
  apply Z.eqb_eq in H1. subst j. split; [reflexivity|].
  destruct (Ascii.eqb (b2a i) BASE64_PAD); [discriminate|reflexivity].
Qed.

Lemma quad_ok_12_all x1 x2 :
  0 <= x1 < 256 -> 0 <= x2 < 256 -> quad_ok_12 x1 x2 = true.
Proof. apply check2_sound. vm_compute. reflexivity. Qed.

Lemma quad_ok_23_all x2 x3 :
  0 <= x2 < 256 -> 0 <= x3 < 256 -> quad_ok_23 x2 x3 = true.
Proof. apply check2_sound. vm_compute. reflexivity. Qed.

(** The first two sextets of a group give back its first byte and keep
    the high half of the second. *)
Lemma quad_12 x1 x2 :
  0 <= x1 < 256 -> 0 <= x2 < 256 ->
  0 <= sextet1 x1 < 64 /\ 0 <= sextet2 x1 x2 < 64 /\
  (Z.lor (Z.shiftl (sextet1 x1) 2) (Z.shiftr (sextet2 x1 x2) 4)) mod 256 = x1
  /\ Z.land (sextet2 x1 x2) 15 = Z.shiftr x2 4.
Proof.
  intros R1 R2. pose proof (quad_ok_12_all x1 x2 R1 R2) as H.
  unfold quad_ok_12, in64 in H. lia.
Qed.

(** The last two sextets give back the second and third bytes. *)
Lemma quad_23 x2 x3 :
  0 <= x2 < 256 -> 0 <= x3 < 256 ->
  0 <= sextet3 x2 x3 < 64 /\ 0 <= sextet4 x3 < 64 /\
  (Z.lor (Z.shiftl (Z.shiftr x2 4) 4) (Z.shiftr (sextet3 x2 x3) 2)) mod 256
  = x2 /\
  Z.land (sextet3 x2 x3) 3 = Z.shiftr x3 6 /\
  (Z.lor (Z.shiftl (Z.shiftr x3 6) 6) (sextet4 x3)) mod 256 = x3.
Proof.
  intros R2 R3. pose proof (quad_ok_23_all x2 x3 R2 R3) as H.
  unfold quad_ok_23, in64 in H. lia.
Qed.

Lemma a2b_loop_sextet (i : Z) rest q lc p out :
  0 <= i < 64 ->
  a2b_loop (b2a i :: rest) q lc p out =
  if q =? 0 then a2b_loop rest 1 i 0 out
  else if q =? 1 then
    a2b_loop rest 2 (Z.land i 15) 0
      (out ++ [byte_of_Z (Z.lor (Z.shiftl lc 2) (Z.shiftr i 4))])
  else if q =? 2 then
    a2b_loop rest 3 (Z.land i 3) 0
      (out ++ [byte_of_Z (Z.lor (Z.shiftl lc 4) (Z.shiftr i 2))])
  else
    a2b_loop rest 0 0 0 (out ++ [byte_of_Z (Z.lor (Z.shiftl lc 6) i)]).
Proof.
  intros Hi. destruct (a2b_b2a i Hi) as [H1 H2].
  cbn [a2b_loop]. rewrite H2, H1. reflexivity.
Qed.

Lemma a2b_loop_triple b1 b2 b3 rest lc p out :
  a2b_loop (b2a_base64 (b1 :: b2 :: b3 :: rest)) 0 lc p out =
  a2b_loop (b2a_base64 rest) 0 0 0 (out ++ [b1; b2; b3]).
Proof.
  cbn [b2a_base64].
  pose proof (byte_to_Z_range b1) as R1.
  pose proof (byte_to_Z_range b2) as R2.
  pose proof (byte_to_Z_range b3) as R3.
  destruct (quad_12 _ _ R1 R2) as (S1 & S2 & B1 & L2).
  destruct (quad_23 _ _ R2 R3) as (S3 & S4 & B2 & L3 & B3).
  rewrite !a2b_loop_sextet by assumption. cbn [Z.eqb Pos.eqb].
  rewrite <- !app_assoc. cbn [app].
  rewrite L2, L3.
  rewrite (byte_of_Z_eq _ b1 B1), (byte_of_Z_eq _ b2 B2),
    (byte_of_Z_eq _ b3 B3).
  reflexivity.
Qed.

Lemma a2b_loop_tail1 b1 lc p out :
  a2b_loop (b2a_base64 [b1]) 0 lc p out = Ok (out ++ [b1]).
Proof.
  cbn [b2a_base64].
  pose proof (byte_to_Z_range b1) as R1.
  assert (R0 : 0 <= 0 < 256) by lia.
  destruct (quad_12 _ _ R1 R0) as (S1 & S2 & B1 & L2).
  rewrite !a2b_loop_sextet by assumption. cbn [Z.eqb Pos.eqb].
  rewrite (byte_of_Z_eq _ b1 B1).
  reflexivity.
Qed.

Lemma a2b_loop_tail2 b1 b2 lc p out :
  a2b_loop (b2a_base64 [b1; b2]) 0 lc p out = Ok (out ++ [b1; b2]).
Proof.
  cbn [b2a_base64].
  pose proof (byte_to_Z_range b1) as R1.
  pose proof (byte_to_Z_range b2) as R2.
  assert (R0 : 0 <= 0 < 256) by lia.
  destruct (quad_12 _ _ R1 R2) as (S1 & S2 & B1 & L2).
  destruct (quad_23 _ _ R2 R0) as (S3 & _ & B2 & _ & _).
  rewrite !a2b_loop_sextet by assumption. cbn [Z.eqb Pos.eqb].
  rewrite <- !app_assoc. cbn [app].
  rewrite L2.
  rewrite (byte_of_Z_eq _ b1 B1), (byte_of_Z_eq _ b2 B2).
  reflexivity.
Qed.

(** Induction over a buffer three bytes at a time. *)
Lemma bytes_triple_ind (P : bytes -> Prop) :
  P [] ->
  (forall b1, P [b1]) ->
  (forall b1 b2, P [b1; b2]) ->
  (forall b1 b2 b3 rest, P rest -> P (b1 :: b2 :: b3 :: rest)) ->
  forall bs, P bs.
Proof.
  intros H0 H1 H2 H3.
  assert (H : forall n (bs : bytes), (List.length bs <= n)%nat -> P bs).
  { induction n as [|n IH]; intros l Hl.
    - destruct l; [exact H0|simpl in Hl; lia].
    - destruct l as [|b1 [|b2 [|b3 rest]]]; auto.
      apply H3, IH. simpl in Hl. lia. }
  intros bs. apply (H (List.length bs)). lia.
Qed.

Lemma a2b_b2a_base64 (bs : bytes) : forall lc p out,
  a2b_loop (b2a_base64 bs) 0 lc p out = Ok (out ++ bs).
Proof.
  induction bs as [|b1|b1 b2|b1 b2 b3 rest IH] using bytes_triple_ind;
    intros lc p out.
  - cbn. rewrite app_nil_r. reflexivity.
  - apply a2b_loop_tail1.
  - apply a2b_loop_tail2.
  - rewrite a2b_loop_triple, IH, <- app_assoc. reflexivity.
Qed.

Lemma b2a_is_ascii (i : Z) : is_ascii (b2a i) = true.
Proof.
  unfold b2a.
  assert (H : forall (s : string) (n : nat),
             forallb is_ascii (list_ascii_of_string s) = true ->
             is_ascii (match String.get n s with
                       | Some c => c
                       | None => BASE64_PAD
                       end) = true).
  { induction s as [|c s IH]; intros n Hs; [reflexivity|].
    cbn in Hs. apply andb_prop in Hs. destruct Hs as [Hc Hs].
    destruct n; cbn; [exact Hc|apply IH, Hs]. }
  apply H. vm_compute. reflexivity.
Qed.

Lemma b2a_base64_is_ascii (bs : bytes) :
  forallb is_ascii (b2a_base64 bs) = true.
Proof.
  induction bs as [|b1|b1 b2|b1 b2 b3 rest IH] using bytes_triple_ind;
    cbn [b2a_base64 forallb]; rewrite ?b2a_is_ascii, ?IH; reflexivity.
Qed.

End Base64Facts.

(** C10. Encoding a buffer of raw PCM audio to its wire representation,
    the base64 string [stream_audio] puts in the ["audio"] field of the
    append event, and decoding that string the way the receiving side
    does gives back the very same bytes. *)
Theorem pcm_base64_roundtrip (now : Q) (audio_chunk : bytes)
  (c : OmniRealtimeClient.client) :
  b64decode (b64encode audio_chunk) = Ok audio_chunk /\
  exists ev,
    OmniRealtimeClient.stream_audio now audio_chunk c
    = (c, [OmniRealtimeClient.WsSend ev], Ok tt) /\
    lookup_key "audio" ev = Some (JStr (b64encode audio_chunk)) /\
    b64decode_value (JStr (b64encode audio_chunk)) = Ok audio_chunk.
Proof.
  assert (R : b64decode (b64encode audio_chunk) = Ok audio_chunk).
  { unfold b64decode, b64encode.
    rewrite list_ascii_of_string_of_list_ascii, b2a_base64_is_ascii.
    unfold a2b_base64. rewrite a2b_b2a_base64. reflexivity. }
  split; [exact R|].
  eexists. split; [reflexivity|]. split; [reflexivity|exact R].
Qed.

(** ** The player of [vad_mode.py] under interruption *)

Section VadModePlayerFacts.

Import VadMode.





End VadModePlayerFacts.






(** ** The dispatcher of [omni_realtime_client.py] *)

Section OmniFacts.

Import OmniRealtimeClient.

Lemma lookup_dict_set_same (k : string) (v : json) (d : dict) :
  lookup_key k (dict_set k v d) = Some v.
Proof.
  induction d as [|[k' v'] d IH]; cbn.
  - rewrite String.eqb_refl. reflexivity.
  - destruct (String.eqb k k') eqn:E; cbn; rewrite ?String.eqb_refl, ?E;
      [reflexivity|exact IH].
Qed.






End OmniFacts.









(** C8 on [handle_messages]: a [response.audio.delta] frame whose
    payload does not decode ends the loop. The decode error is caught
    by the handler around the whole loop, which prints it and returns:
    the frame that follows is never dispatched. *)
Theorem bad_audio_delta_ends_handle_messages :
  let c0 :=
    OmniRealtimeClient.init None (Some (fun _ => None)) None None ∅ in
  let bad :=
    JObj [("type", JStr "response.audio.delta"); ("delta", JStr "A")] in
  let next :=
    JObj [("type", JStr "response.created");
          ("response", JObj [("id", JStr "r1")])] in
  b64decode "A" = Raise BinasciiError /\
  OmniRealtimeClient.handle_messages
    [(inject_Z 1, bad); (inject_Z 2, next)] c0
  = (c0,
     [OmniRealtimeClient.PrintExn " Error in message handling: "
        BinasciiError],
     [(inject_Z 2, next)]) /\
  OmniRealtimeClient.handle_messages [(inject_Z 2, next)] c0
  = (OmniRealtimeClient.set_is_responding true
       (OmniRealtimeClient.set_current_response_id (JStr "r1") c0),
     [], []).
Proof.
  cbv zeta. split; [reflexivity|]. split; reflexivity.
Qed.

(** ** The dispatcher of [message_handler.py] *)

Section MessageHandlerFacts.

Import MessageHandler.

Variable json_loads : string -> result json.



(** A payload that does not decode: [play_base64] prints the error and
    returns, the queue and the device as they were. *)
Lemma play_base64_decode_failure (x : json) (e : exn)
  (p : AudioPlayer.AudioPlayer) :
  truthy x = true ->
  b64decode_value x = Raise e ->
  AudioPlayer.play_base64 x p
  = (p, [AudioPlayer.PrintExn "解码音频数据失败: " e], Ok tt).
Proof.
  intros Ht He. unfold AudioPlayer.play_base64. rewrite Ht. cbn [negb].
  unfold try_except, bind, lift. rewrite He. reflexivity.
Qed.

End MessageHandlerFacts.

(** On the path of [message_handler.py] a bad payload is dropped and
    printed by the player, and the loop receives the next message. *)
Example bad_audio_delta_keeps_receive_loop_running :
  let h := fst (MessageHandler.init None true 24000 1 2 true true) in
  let bad :=
    {| MessageHandler.is_dict := true;
       MessageHandler.attrs :=
         [("type", JStr "response.audio.delta"); ("delta", JStr "A")] |} in
  let next :=
    {| MessageHandler.is_dict := true;
       MessageHandler.attrs := [("type", JStr "response.audio.done")] |} in
  MessageHandler.receive_loop (fun _ => Raise JSONDecodeError)
    [MessageHandler.Recv (Some bad); MessageHandler.Recv (Some next)] h
  = (h,
     [MessageHandler.Print "模型音频增量消息" [];
      MessageHandler.Print "  Response Id: " [JStr "Unknown"];
      MessageHandler.Print "  Delta Length: " [JNum 1];
      MessageHandler.Player
        (AudioPlayer.PrintExn "解码音频数据失败: " BinasciiError);
      MessageHandler.Print "模型音频完成消息" []],
     MessageHandler.StillReceiving, []).
Proof. reflexivity. Qed.

(** A type with a routed prefix and no case in its handler is dropped
    without a word. *)
Example routed_unknown_type_is_dropped_silently :
  let h := fst (MessageHandler.init None false 24000 1 2 true true) in
  let m :=
    {| MessageHandler.is_dict := true;
       MessageHandler.attrs := [("type", JStr "response.text.delta")] |} in
  MessageHandler.dispatch (fun _ => Raise JSONDecodeError) m h
  = (h, [], Ok tt).
Proof. reflexivity. Qed.




(** ** The capture loops *)

(** C7, as stated, fails on the code: [record_and_send] has no wait at
    all. Its first device read and its first append event come right
    after the microphone is opened. *)
Lemma record_and_send_does_not_wait_for_session_ready :
  let c0 := OmniRealtimeClient.init None None None None ∅ in
  let out :=
    [VadMode.MicOpen;
     VadMode.Print "开始录音，请讲话...";
     VadMode.MicRead [x01; x02];
     VadMode.Client
       (OmniRealtimeClient.WsSend
          [("type", JStr "input_audio_buffer.append");
           ("audio", JStr "AQI=");
           ("event_id", JStr "event_1000")]);
     VadMode.Sleep;
     VadMode.MicClose] in
  VadMode.record_and_send [(inject_Z 1, Ok [x01; x02])] c0
  = (c0, out, Ok tt) /\
  Capture.gated (fun _ => false) VadMode.is_audio_emission out = false.
Proof.
  cbv zeta. split; reflexivity.
Qed.

(** C7, amended. When the session-ready event is installed,
    [send_audio_from_mic] reads no audio from the device and sends no
    append message before its wait on that event has returned, in every
    run; while the event is never set it emits no audio at all. Without
    the event installed the loop starts at once. *)
Theorem send_audio_from_mic_waits_for_session_ready
  (shutdown_event enable_mic_playback mic_ok playback_ok : bool)
  (samples : nat) (passes : list ServerVad.pass) :
  Capture.gated ServerVad.is_session_ready ServerVad.is_audio_emission
    (ServerVad.send_audio_from_mic true shutdown_event enable_mic_playback
       mic_ok playback_ok samples passes) = true /\
  match ServerVad.wait passes with
  | None =>
      existsb ServerVad.is_audio_emission
        (ServerVad.send_audio_from_mic true shutdown_event
           enable_mic_playback mic_ok playback_ok samples passes) = false
  | Some rest =>
      ServerVad.send_audio_from_mic true shutdown_event
        enable_mic_playback mic_ok playback_ok samples passes
      = ServerVad.Print "⏳ 等待会话配置完成..."
        :: ServerVad.SessionReadyWaited
        :: ServerVad.Print "✅ 会话已就绪，开始录音"
        :: ServerVad.capture shutdown_event enable_mic_playback mic_ok
             playback_ok samples rest
  end /\
  ServerVad.send_audio_from_mic false shutdown_event enable_mic_playback
    mic_ok playback_ok samples passes
  = ServerVad.capture shutdown_event enable_mic_playback mic_ok playback_ok
      samples passes.
Proof.
  unfold ServerVad.send_audio_from_mic.
  destruct (ServerVad.wait passes) as [rest|]; repeat split.
Qed.

(** With both events installed and the session-ready flag set at the
    second pass, the first read comes after the wait. *)
Example send_audio_from_mic_run :
  let pass ready data :=
    {| ServerVad.session_ready_is_set := ready;
       ServerVad.shutdown_is_set := false;
       ServerVad.loop_time := inject_Z 5;
       ServerVad.read := Ok data;
       ServerVad.send := None |} in
  ServerVad.send_audio_from_mic true true false true true 0
    [pass false [x01]; pass true [x02]; pass true [x03; x04]]
  = [ServerVad.Print "⏳ 等待会话配置完成...";
     ServerVad.SessionReadyWaited;
     ServerVad.Print "✅ 会话已就绪，开始录音";
     ServerVad.Print "音频信息: 格式=PCM16, 采样率=16000Hz, 声道数=1, 位深=16位";
     ServerVad.Print "数据包大小: 100ms";
     ServerVad.Print "开始从麦克风录音，按 Ctrl+C 停止...";
     ServerVad.Print "提示: 说话后停顿 0.5 秒以触发响应";
     ServerVad.MicOpen;
     ServerVad.MicRead [x03; x04];
     ServerVad.ClientSend
       {| ServerVad.audio := "AwQ="; ServerVad.client_timestamp := 5000 |};
     ServerVad.MicClose;
     ServerVad.Terminate;
     ServerVad.Print "麦克风已关闭"].
Proof. reflexivity. Qed.

(** ** Known encodings *)

Example b64encode_known :
  b64encode [x01; x02] = "AQI=" /\
  b64encode [x4d; x61; x6e] = "TWFu" /\
  b64encode [] = "" /\
  b64encode [xff] = "/w==".
Proof. repeat split. Qed.

Example b64decode_known :
  b64decode "AQI=" = Ok [x01; x02] /\
  b64decode "TWFu" = Ok [x4d; x61; x6e] /\
  b64decode "AQ!!I=" = Ok [x01; x02] /\
  b64decode "A" = Raise BinasciiError /\
  b64decode "AQI" = Raise BinasciiError.
Proof. repeat split. Qed.

(** * Further properties of the code *)

(** ** The client of [omni_realtime_client.py], frame by frame *)

Section OmniFrameFacts.

Import OmniRealtimeClient.

(** Case analysis on the type of a frame, in the order of the branches
    of the loop. *)
Ltac split_on_type t :=
  destruct (str_eq t "error") eqn:?;
  [|destruct (str_eq t "response.created") eqn:?;
  [|destruct (str_eq t "response.output_item.added") eqn:?;
  [|destruct (str_eq t "response.done") eqn:?;
  [|destruct (str_eq t "input_audio_buffer.speech_started") eqn:?;
  [|destruct (str_eq t "input_audio_buffer.speech_stopped") eqn:?;
  [|destruct (str_eq t "response.text.delta") eqn:?;
  [|destruct (str_eq t "response.audio.delta") eqn:?;
  [|destruct (str_eq t
                "conversation.item.input_audio_transcription.completed")
      eqn:?;
  [|destruct (str_eq t "response.audio_transcript.delta") eqn:?;
  [|destruct (str_eq t "response.audio_transcript.done") eqn:?]]]]]]]]]].

Ltac destruct_scrutinee :=
  match goal with
  | |- context [match ?x with _ => _ end] =>
      lazymatch x with
      | context [match _ with _ => _ end] => fail
      | _ => destruct x eqn:?
      end
  end.

Ltac run_branch := repeat (cbn; destruct_scrutinee); cbn.

Ltac frame_cases now event c :=
  unfold handle_message, handle_interruption, cancel_response, send_event,
    find_extra_handler, str_concat;
  unfold bind, lift, emit, modify, get, call, ret, raise;
  destruct (py_get event "type" JNull) as [t|] eqn:?; cbn;
  [split_on_type t; run_branch|].

Lemma str_eq_true (t : json) (s : string) : str_eq t s = true -> t = JStr s.
Proof.
  destruct t; cbn; try discriminate. intros H.
  apply String.eqb_eq in H. congruence.
Qed.

Lemma append_nil_r (s : string) : s +:+ "" = s.
Proof.
  induction s as [|a s IH]; [reflexivity|].
  change (String a (s +:+ "") = String a s). congruence.
Qed.

Lemma append_nil_l (s : string) : "" +:+ s = s.
Proof. reflexivity. Qed.

Lemma append_assoc (s1 s2 s3 : string) :
  (s1 +:+ s2) +:+ s3 = s1 +:+ (s2 +:+ s3).
Proof.
  induction s1 as [|a s1 IH]; [reflexivity|].
  change (String a ((s1 +:+ s2) +:+ s3) = String a (s1 +:+ (s2 +:+ s3))).
  congruence.
Qed.

(** A frame never changes the callbacks or the extension map. *)
Lemma handle_message_keeps_callbacks now event c c' out r :
  handle_message now event c = (c', out, r) ->
  on_text_delta c' = on_text_delta c /\
  on_audio_delta c' = on_audio_delta c /\
  on_input_transcript c' = on_input_transcript c /\
  on_output_transcript c' = on_output_transcript c /\
  extra_event_handlers c' = extra_event_handlers c.
Proof.
  frame_cases now event c.
  all: intros H; inversion H; subst; clear H; cbn; repeat split;
    congruence.
Qed.

(** A frame keeps the response id unset while the client is idle. *)
Lemma handle_message_keeps_id_while_idle now event c c' out r :
  handle_message now event c = (c', out, r) ->
  _is_responding c = true \/ _current_response_id c = JNull ->
  _is_responding c' = true \/ _current_response_id c' = JNull.
Proof.
  frame_cases now event c.
  all: intros H; inversion H; subst; clear H; cbn; intros [Hr|Hr]; auto;
    congruence.
Qed.

(** What a frame sends: nothing, or one [response.cancel]. *)
Lemma handle_message_sends now event c c' out r :
  handle_message now event c = (c', out, r) ->
  List.filter Run.is_ws_send out = [] \/
  (List.filter Run.is_ws_send out
   = [WsSend [("type", JStr "response.cancel");
              ("event_id", JStr (event_id now))]] /\
   py_get event "type" JNull = Ok (JStr "input_audio_buffer.speech_started")
   /\ _is_responding c = true /\ truthy (_current_response_id c) = true).
Proof.
  frame_cases now event c.
  all: intros H; inversion H; subst; clear H; cbn; auto.
  right. repeat split; auto.
  f_equal. apply str_eq_true. assumption.
Qed.

(** The output transcript of a frame handled without an exception:
    what is delivered and what is left in the buffer is what was in the
    buffer followed by the text of the frame. *)
Lemma handle_message_transcript now event c c' out :
  handle_message now event c = (c', out, Ok tt) ->
  Run.delivered_output out +:+ _output_transcript_buffer c'
  = _output_transcript_buffer c
    +:+ match on_output_transcript c with
        | Some _ => Run.transcript_delta event
        | None => ""
        end.
Proof.
  unfold Run.transcript_delta.
  frame_cases now event c.
  all: intros H; inversion H; subst; clear H; cbn.
  all: repeat match goal with
         | H : str_eq _ _ = true |- _ => apply str_eq_true in H; subst
         end; cbn.
  all: repeat match goal with
         | H : str_eq ?t ?s = _ |- context [str_eq ?t ?s] => rewrite H
         end; cbn.
  all: rewrite ?append_nil_r, ?append_nil_l; try reflexivity.
  all: try (destruct (on_output_transcript _);
            rewrite ?append_nil_r, ?append_nil_l; reflexivity).
  all: try congruence.
  apply Bool.negb_false_iff, String.eqb_eq in Heqb10. rewrite Heqb10.
  rewrite append_nil_r. reflexivity.
Qed.

(** With no [on_input_transcript] and the print flag down, a frame
    delivers no output transcript and leaves the flag down. *)
Lemma handle_message_muted now event c c' out r :
  on_input_transcript c = None ->
  _print_input_transcript c = false ->
  handle_message now event c = (c', out, r) ->
  _print_input_transcript c' = false /\
  existsb Run.is_output_transcript out = false.
Proof.
  intros Hi Hp.
  frame_cases now event c.
  all: intros H; inversion H; subst; clear H; cbn; split; try congruence.
  all: try (rewrite Hp in *; cbn in *; congruence).
Qed.

Lemma handle_messages_cons now event rest c :
  handle_messages ((now, event) :: rest) c =
  match handle_message now event c with
  | (c1, out1, Ok _) =>
      match handle_messages rest c1 with
      | (c2, out2, pending) => (c2, out1 ++ out2, pending)
      end
  | (c1, out1, Raise ConnectionClosed) =>
      (c1, out1 ++ [Print " Connection closed" []], rest)
  | (c1, out1, Raise e) =>
      (c1, out1 ++ [PrintExn " Error in message handling: " e], rest)
  end.
Proof. reflexivity. Qed.

(** A property of the client that every frame keeps holds after the
    loop, however it ends. *)
Lemma handle_messages_invariant (P : client -> Prop) :
  (forall now event c c' out r,
     handle_message now event c = (c', out, r) -> P c -> P c') ->
  forall frames c, P c -> P (fst (fst (handle_messages frames c))).
Proof.
  intros Hstep. induction frames as [|[now event] rest IH]; intros c Hc;
    [exact Hc|].
  rewrite handle_messages_cons.
  destruct (handle_message now event c) as [[c1 out1] [[]|e]] eqn:E.
  - specialize (IH c1 (Hstep _ _ _ _ _ _ E Hc)).
    destruct (handle_messages rest c1) as [[c2 out2] pending]. exact IH.
  - destruct e; exact (Hstep _ _ _ _ _ _ E Hc).
Qed.

(** A property of what every frame emits, closed under the two prints
    of the handlers around the loop, holds of what the loop emits. *)
Lemma handle_messages_emits (Q : list effect -> Prop) :
  Q [] ->
  (forall out1 out2, Q out1 -> Q out2 -> Q (out1 ++ out2)) ->
  (forall text args, Q [Print text args]) ->
  (forall text e, Q [PrintExn text e]) ->
  (forall now event c c' out r,
     handle_message now event c = (c', out, r) -> Q out) ->
  forall frames c, Q (snd (fst (handle_messages frames c))).
Proof.
  intros Hnil Happ Hprint Hexn Hstep.
  induction frames as [|[now event] rest IH]; intros c; [exact Hnil|].
  rewrite handle_messages_cons.
  destruct (handle_message now event c) as [[c1 out1] [[]|e]] eqn:E.
  - specialize (IH c1).
    destruct (handle_messages rest c1) as [[c2 out2] pending].
    apply Happ; [exact (Hstep _ _ _ _ _ _ E)|exact IH].
  - destruct e; cbn; (apply Happ; [exact (Hstep _ _ _ _ _ _ E)|]);
      first [apply Hprint|apply Hexn].
Qed.

Lemma lookup_dict_set_other (k k' : string) (v : json) (d : dict) :
  k' <> k -> lookup_key k' (dict_set k v d) = lookup_key k' d.
Proof.
  intros Hk. apply String.eqb_neq in Hk.
  induction d as [|[k0 v0] d IH]; cbn.
  - rewrite Hk. reflexivity.
  - destruct (String.eqb k k0) eqn:E; cbn.
    + apply String.eqb_eq in E. subst k0. rewrite Hk. reflexivity.
    + rewrite IH. reflexivity.
Qed.

Lemma dict_set_length (k : string) (v : json) (d : dict) :
  List.length (dict_set k v d)
  = match lookup_key k d with
    | Some _ => List.length d
    | None => S (List.length d)
    end.
Proof.
  induction d as [|[k0 v0] d IH]; cbn; [reflexivity|].
  destruct (String.eqb k k0); cbn; [reflexivity|].
  rewrite IH. destruct (lookup_key k d); reflexivity.
Qed.

End OmniFrameFacts.

(** X1. From a fresh client, whatever frames arrive and however the
    loop ends, a response id is held only while a reply is in progress:
    whenever the client is not responding its current response id is
    [None]. *)
Theorem response_id_unset_while_idle
  (on_text : option (callable json)) (on_audio : option (callable bytes))
  (on_input on_output : option (callable json))
  (extra : gmap string (callable json)) (frames : list (Q * json)) :
  OmniRealtimeClient._is_responding
    (fst (fst (OmniRealtimeClient.handle_messages frames
                 (OmniRealtimeClient.init on_text on_audio on_input
                    on_output extra)))) = true \/
  OmniRealtimeClient._current_response_id
    (fst (fst (OmniRealtimeClient.handle_messages frames
                 (OmniRealtimeClient.init on_text on_audio on_input
                    on_output extra)))) = JNull.
Proof.
  apply (handle_messages_invariant
           (fun c => OmniRealtimeClient._is_responding c = true \/
                     OmniRealtimeClient._current_response_id c = JNull)).
  - intros now event c c' out r. apply handle_message_keeps_id_while_idle.
  - right. reflexivity.
Qed.

(** X2. Whatever frames arrive, the only events [handle_messages] puts
    on the connection are [response.cancel] events, and never more of
    them than frames received. *)
Theorem handle_messages_sends_only_cancel (frames : list (Q * json))
  (c : OmniRealtimeClient.client) :
  forallb (fun e => negb (Run.is_ws_send e) || OmniRealtimeClient.is_cancel e)
    (snd (fst (OmniRealtimeClient.handle_messages frames c))) = true /\
  (Run.count Run.is_ws_send
     (snd (fst (OmniRealtimeClient.handle_messages frames c)))
   <= List.length frames)%nat.
Proof.
  split.
  - apply (handle_messages_emits
             (fun out =>
                forallb (fun e => negb (Run.is_ws_send e)
                                  || OmniRealtimeClient.is_cancel e) out
                = true)); try reflexivity.
    + intros out1 out2 H1 H2. rewrite forallb_app, H1, H2. reflexivity.
    + intros now event c0 c' out r H.
      destruct (handle_message_sends _ _ _ _ _ _ H) as [Hn|[Hs _]].
      * apply forallb_forall. intros e He.
        destruct (Run.is_ws_send e) eqn:Ee; [|reflexivity].
        assert (Hin : In e (List.filter Run.is_ws_send out))
          by (apply List.filter_In; split; assumption).
        rewrite Hn in Hin. destruct Hin.
      * apply forallb_forall. intros e He.
        destruct (Run.is_ws_send e) eqn:Ee; [|reflexivity].
        assert (Hin : In e (List.filter Run.is_ws_send out))
          by (apply List.filter_In; split; assumption).
        rewrite Hs in Hin. destruct Hin as [<-|[]]. reflexivity.
  - revert c. induction frames as [|[now event] rest IH]; intros c;
      [cbn; lia|].
    rewrite handle_messages_cons. unfold Run.count in *.
    destruct (OmniRealtimeClient.handle_message now event c)
      as [[c1 out1] [[]|e]] eqn:E.
    + specialize (IH c1).
      destruct (OmniRealtimeClient.handle_messages rest c1)
        as [[c2 out2] pending].
      cbn [fst snd] in *. rewrite List.filter_app, length_app.
      destruct (handle_message_sends _ _ _ _ _ _ E) as [Hn|[Hs _]];
        [rewrite Hn|rewrite Hs]; cbn [List.length]; lia.
    + assert (Hle : (List.length (List.filter Run.is_ws_send out1) <= 1)%nat).
      { destruct (handle_message_sends _ _ _ _ _ _ E) as [Hn|[Hs _]];
          [rewrite Hn|rewrite Hs]; cbn; lia. }
      destruct e; cbn [fst snd]; rewrite List.filter_app, length_app;
        cbn [List.filter Run.is_ws_send List.length]; lia.
Qed.

Section OmniRunFacts.

Import OmniRealtimeClient.

Lemma delivered_output_app (out1 out2 : list effect) :
  Run.delivered_output (out1 ++ out2)
  = Run.delivered_output out1 +:+ Run.delivered_output out2.
Proof.
  induction out1 as [|e out1 IH]; [reflexivity|].
  destruct e; cbn [app Run.delivered_output]; try exact IH.
  rewrite IH, append_assoc. reflexivity.
Qed.

Lemma transcript_accounting (f : callable json) (frames : list (Q * json)) :
  forall c,
  on_output_transcript c = Some f ->
  Run.handled_count frames c = List.length frames ->
  Run.delivered_output (snd (fst (handle_messages frames c)))
  +:+ _output_transcript_buffer (fst (fst (handle_messages frames c)))
  = _output_transcript_buffer c +:+ Run.received_output frames.
Proof.
  induction frames as [|[now event] rest IH]; intros c Hf Hc.
  - cbn. rewrite append_nil_r. reflexivity.
  - rewrite handle_messages_cons. cbn [Run.handled_count] in Hc.
    destruct (handle_message now event c) as [[c1 out1] [[]|e]] eqn:E;
      [|discriminate].
    pose proof (handle_message_transcript _ _ _ _ _ E) as Hstep.
    rewrite Hf in Hstep.
    destruct (handle_message_keeps_callbacks _ _ _ _ _ _ E)
      as (_ & _ & _ & Ho & _).
    assert (Hf1 : on_output_transcript c1 = Some f) by congruence.
    specialize (IH c1 Hf1 ltac:(cbn in Hc; lia)).
    destruct (handle_messages rest c1) as [[c2 out2] pending].
    cbn [fst snd] in *. cbn [Run.received_output].
    rewrite delivered_output_app, append_assoc, IH, <- append_assoc, Hstep,
      append_assoc.
    reflexivity.
Qed.

Lemma b64decode_b64encode (bs : bytes) : b64decode (b64encode bs) = Ok bs.
Proof.
  unfold b64decode, b64encode.
  rewrite list_ascii_of_string_of_list_ascii, b2a_base64_is_ascii.
  unfold a2b_base64. rewrite a2b_b2a_base64. reflexivity.
Qed.

End OmniRunFacts.

(** X3. When an output-transcript callback is registered and every
    frame of a stream is handled without an exception, no transcript
    text is lost, duplicated or reordered: the text given to the
    callback, followed by what is still buffered, is what was buffered
    at the start followed by the deltas of the stream in arrival
    order. *)
Theorem output_transcript_is_delivered_in_order (f : callable json)
  (frames : list (Q * json)) (c : OmniRealtimeClient.client) :
  OmniRealtimeClient.on_output_transcript c = Some f ->
  Run.handled_count frames c = List.length frames ->
  Run.delivered_output
    (snd (fst (OmniRealtimeClient.handle_messages frames c)))
  +:+ OmniRealtimeClient._output_transcript_buffer
        (fst (fst (OmniRealtimeClient.handle_messages frames c)))
  = OmniRealtimeClient._output_transcript_buffer c
    +:+ Run.received_output frames.
Proof. apply transcript_accounting. Qed.

Lemma output_transcript_is_delivered_in_order_witness :
  let c := OmniRealtimeClient.init None None (Some (fun _ => None))
             (Some (fun _ => None)) ∅ in
  let delta s :=
    (inject_Z 1,
     JObj [("type", JStr "response.audio_transcript.delta");
           ("delta", JStr s)]) in
  let frames :=
    [(inject_Z 1, JObj [("type", JStr "response.audio_transcript.done")]);
     delta "a"; delta "b";
     (inject_Z 1,
      JObj [("type",
             JStr "conversation.item.input_audio_transcription.completed")]);
     delta "c"] in
  Run.handled_count frames c = List.length frames /\
  Run.delivered_output
    (snd (fst (OmniRealtimeClient.handle_messages frames c)))
  +:+ OmniRealtimeClient._output_transcript_buffer
        (fst (fst (OmniRealtimeClient.handle_messages frames c)))
  = "abc".
Proof.
  cbv zeta. split; [reflexivity|].
  match goal with
  | |- context [OmniRealtimeClient.handle_messages ?frames ?c] =>
      exact (output_transcript_is_delivered_in_order (fun _ => None)
               frames c eq_refl eq_refl)
  end.
Defined.

(** X4. With no input-transcript callback registered, once the print
    flag is down (a [response.audio_transcript.done] frame puts it
    down) it never comes up again: no later frame gives anything to the
    output-transcript callback, whatever arrives. *)
Theorem output_transcript_muted_without_input_callback
  (frames : list (Q * json)) (c : OmniRealtimeClient.client) :
  OmniRealtimeClient.on_input_transcript c = None ->
  OmniRealtimeClient._print_input_transcript c = false ->
  existsb Run.is_output_transcript
    (snd (fst (OmniRealtimeClient.handle_messages frames c))) = false /\
  OmniRealtimeClient._print_input_transcript
    (fst (fst (OmniRealtimeClient.handle_messages frames c))) = false.
Proof.
  revert c. induction frames as [|[now event] rest IH]; intros c Hi Hp.
  - split; [reflexivity|exact Hp].
  - rewrite handle_messages_cons.
    destruct (OmniRealtimeClient.handle_message now event c)
      as [[c1 out1] r] eqn:E.
    destruct (handle_message_muted _ _ _ _ _ _ Hi Hp E) as [Hp1 Ho1].
    destruct (handle_message_keeps_callbacks _ _ _ _ _ _ E)
      as (_ & _ & Hi1 & _ & _).
    destruct r as [[]|e].
    + destruct (IH c1 ltac:(congruence) Hp1) as [Ho2 Hp2].
      destruct (OmniRealtimeClient.handle_messages rest c1)
        as [[c2 out2] pending].
      cbn [fst snd] in *. rewrite existsb_app, Ho1, Ho2.
      split; [reflexivity|exact Hp2].
    + destruct e; cbn [fst snd]; rewrite existsb_app, Ho1;
        (split; [reflexivity|exact Hp1]).
Qed.

Lemma output_transcript_muted_without_input_callback_witness :
  let c :=
    fst (fst (OmniRealtimeClient.handle_messages
                [(inject_Z 1,
                  JObj [("type", JStr "response.audio_transcript.done")])]
                (OmniRealtimeClient.init None None None
                   (Some (fun _ => None)) ∅))) in
  let frames :=
    [(inject_Z 2,
      JObj [("type",
             JStr "conversation.item.input_audio_transcription.completed")]);
     (inject_Z 3,
      JObj [("type", JStr "response.audio_transcript.delta");
            ("delta", JStr "hello")])] in
  OmniRealtimeClient._print_input_transcript c = false /\
  existsb Run.is_output_transcript
    (snd (fst (OmniRealtimeClient.handle_messages frames c))) = false.
Proof.
  cbv zeta. split; [reflexivity|].
  match goal with
  | |- context [snd (fst (OmniRealtimeClient.handle_messages ?frames ?c))] =>
      exact (proj1 (output_transcript_muted_without_input_callback
                      frames c eq_refl eq_refl))
  end.
Defined.

(** X5. [send_event] sends exactly one event: the one it was given with
    its ["event_id"] set to the id of the moment. Every other field is
    as it was, and an ["event_id"] already present is overwritten, not
    added a second time. The client is left unchanged. *)
Theorem send_event_stamps_event_id (now : Q) (event : dict)
  (c : OmniRealtimeClient.client) :
  exists sent,
    OmniRealtimeClient.send_event now event c
    = (c, [OmniRealtimeClient.WsSend sent], Ok tt) /\
    lookup_key "event_id" sent = Some (JStr (OmniRealtimeClient.event_id now))
    /\
    (forall k, k <> "event_id" -> lookup_key k sent = lookup_key k event) /\
    List.length sent
    = match lookup_key "event_id" event with
      | Some _ => List.length event
      | None => S (List.length event)
      end.
Proof.
  eexists. split; [reflexivity|]. split; [apply lookup_dict_set_same|].
  split; [intros k Hk; apply lookup_dict_set_other, Hk|].
  apply dict_set_length.
Qed.

(** X6. A [response.audio.delta] frame whose ["delta"] is the base64
    encoding of a buffer hands exactly that buffer, byte for byte, to
    the registered audio callback, and changes nothing in the client;
    the frame raises only if the callback does. *)
Theorem audio_delta_reaches_callback_intact (now : Q) (d : dict)
  (audio : bytes) (f : callable bytes) (c : OmniRealtimeClient.client) :
  lookup_key "type" d = Some (JStr "response.audio.delta") ->
  lookup_key "delta" d = Some (JStr (b64encode audio)) ->
  OmniRealtimeClient.on_audio_delta c = Some f ->
  OmniRealtimeClient.handle_message now (JObj d) c
  = (c, [OmniRealtimeClient.OnAudioDelta audio],
     match f audio with
     | None => Ok tt
     | Some e => Raise e
     end).
Proof.
  intros Ht Hd Hf.
  unfold OmniRealtimeClient.handle_message, bind, lift, py_get, get, call,
    emit, ret, raise.
  rewrite Ht. cbn. rewrite Hf. unfold py_getitem. rewrite Hd. cbn.
  rewrite b64decode_b64encode. cbn. destruct (f audio); reflexivity.
Qed.

Lemma audio_delta_reaches_callback_intact_witness :
  lookup_key "delta"
    [("type", JStr "response.audio.delta"); ("delta", JStr "AQI=")]
  = Some (JStr (b64encode [x01; x02])) /\
  OmniRealtimeClient.handle_message (inject_Z 1)
    (JObj [("type", JStr "response.audio.delta"); ("delta", JStr "AQI=")])
    (OmniRealtimeClient.init None (Some (fun _ => None)) None None ∅)
  = (OmniRealtimeClient.init None (Some (fun _ => None)) None None ∅,
     [OmniRealtimeClient.OnAudioDelta [x01; x02]], Ok tt).
Proof.
  split; [reflexivity|].
  exact (audio_delta_reaches_callback_intact (inject_Z 1)
           [("type", JStr "response.audio.delta"); ("delta", JStr "AQI=")]
           [x01; x02] (fun _ => None)
           (OmniRealtimeClient.init None (Some (fun _ => None)) None None ∅)
           eq_refl eq_refl eq_refl).
Defined.

(** ** The player of [audio_player.py] *)

Section AudioPlayerFacts.

Import AudioPlayer.

Lemma chunks_of_app (q1 q2 : list (option bytes)) :
  Run.chunks_of (q1 ++ q2) = Run.chunks_of q1 ++ Run.chunks_of q2.
Proof.
  induction q1 as [|[b|] q1 IH]; cbn; [reflexivity| |exact IH].
  rewrite IH. reflexivity.
Qed.

(** A move on a healthy player keeps it healthy, and keeps what is
    written followed by what is queued in step with what is enqueued. *)
Lemma healthy_move (m : option bytes) (p : AudioPlayer) :
  Run.healthy p ->
  Run.healthy (Run.player_op_run (Run.move_op m) p) /\
  written (Run.player_op_run (Run.move_op m) p)
  ++ Run.chunks_of (audio_queue (Run.player_op_run (Run.move_op m) p))
  = (written p ++ Run.chunks_of (audio_queue p)) ++ Run.chunks_of [m].
Proof.
  intros [Hd H]. destruct p as [r ch w k q pl th py st wr dev].
  cbn in Hd, H. subst dev.
  destruct m as [b|]; cbn [Run.move_op Run.player_op_run].
  - destruct H as [(Hp & Ht & Hq)|(Hp & Ht & Hs & Hq)]; subst; cbn.
    + split; [|rewrite ?app_nil_r; reflexivity].
      split; [reflexivity|]. right. repeat split.
      constructor; [discriminate|constructor].
    + split.
      * split; [reflexivity|]. right. repeat split.
        apply Forall_app. split; [exact Hq|].
        constructor; [discriminate|constructor].
      * rewrite chunks_of_app, app_assoc. reflexivity.
  - destruct H as [(Hp & Ht & Hq)|(Hp & Ht & Hs & Hq)]; subst.
    + cbn. split; [|rewrite ?app_nil_r; reflexivity].
      split; [reflexivity|]. left. auto.
    + destruct q as [|[b|] q]; cbn.
      * split; [|rewrite ?app_nil_r; reflexivity].
        split; [reflexivity|]. right. auto.
      * split.
        -- split; [reflexivity|]. right. repeat split.
           inversion Hq; assumption.
        -- rewrite !app_nil_r, <- app_assoc. reflexivity.
      * inversion Hq as [|x l Hn]. contradiction.
Qed.

End AudioPlayerFacts.

(** X7. On a device that works, with a producer calling [play_bytes]
    and the play loop taking passes in any interleaving, the player
    loses nothing, repeats nothing and keeps the order: what has been
    written to the device followed by what is still queued is exactly
    the chunks enqueued, in the order they came. *)
Theorem player_keeps_chunks_in_order (rate chans width chunk : Z)
  (moves : list (option bytes)) :
  AudioPlayer.written
    (Run.player_run (map Run.move_op moves)
       (AudioPlayer.init rate chans width chunk true))
  ++ Run.chunks_of
       (AudioPlayer.audio_queue
          (Run.player_run (map Run.move_op moves)
             (AudioPlayer.init rate chans width chunk true)))
  = Run.chunks_of moves.
Proof.
  assert (H : forall (ms : list (option bytes)) (p : AudioPlayer.AudioPlayer),
             Run.healthy p ->
             AudioPlayer.written (Run.player_run (map Run.move_op ms) p)
             ++ Run.chunks_of
                  (AudioPlayer.audio_queue
                     (Run.player_run (map Run.move_op ms) p))
             = (AudioPlayer.written p
                ++ Run.chunks_of (AudioPlayer.audio_queue p))
               ++ Run.chunks_of ms).
  { induction ms as [|m ms IH]; intros p Hp.
    - cbn. rewrite app_nil_r. reflexivity.
    - cbn [map Run.player_run].
      destruct (healthy_move m p Hp) as [Hh He].
      rewrite (IH _ Hh), He, <- app_assoc, <- chunks_of_app. reflexivity. }
  rewrite H; [reflexivity|].
  split; [reflexivity|]. left. auto.
Qed.

Section AudioPlayerCalls.

Import AudioPlayer.

Lemma b64encode_truthy (bs : bytes) :
  bs <> [] -> truthy (JStr (b64encode bs)) = true.
Proof.
  intros H. destruct bs as [|b1 [|b2 [|b3 rest]]]; [contradiction| | |];
    reflexivity.
Qed.

(** On a device that cannot be opened, no call and no pass of the loop
    gives the player a stream. *)
Lemma no_device_step (o : Run.player_op) (p : AudioPlayer) :
  device_ok p = false -> stream p = false ->
  device_ok (Run.player_op_run o p) = false /\
  stream (Run.player_op_run o p) = false /\
  written (Run.player_op_run o p) = written p.
Proof.
  intros Hd Hs. destruct p as [r ch w k q pl th py st wr dev].
  cbn in Hd, Hs. subst dev st.
  destruct o as [x|b| | |]; cbn [Run.player_op_run].
  - unfold play_base64. destruct (truthy x); cbn; [|auto].
    destruct (b64decode_value x); cbn; [|auto].
    destruct pl; cbn; auto.
  - destruct pl; cbn; auto.
  - destruct pl; cbn; auto.
  - destruct pl; cbn; auto.
  - unfold _play_loop_step. cbn.
    destruct th; cbn; [|auto]. destruct pl; cbn; [|auto].
    destruct q as [|[b|] q]; cbn; auto.
Qed.

(** [play_base64] always returns, the device untouched. *)
Lemma play_base64_returns (x : json) (p : AudioPlayer) :
  exists p' out,
    play_base64 x p = (p', out, Ok tt) /\ written p' = written p.
Proof.
  destruct p as [r ch w k q pl th py st wr dev].
  unfold play_base64. destruct (truthy x); cbn;
    [|do 2 eexists; split; reflexivity].
  unfold try_except, bind, lift.
  destruct (b64decode_value x); cbn; [|do 2 eexists; split; reflexivity].
  destruct pl; cbn; [do 2 eexists; split; reflexivity|].
  destruct dev; cbn; do 2 eexists; split; reflexivity.
Qed.

End AudioPlayerCalls.

(** X8. [play_base64] given the base64 encoding of a buffer that is not
    empty, on a player that is playing or whose device opens, puts
    exactly that buffer at the end of the queue, starting the player if
    need be, and raises nothing; given the encoding of the empty
    buffer it does nothing at all. *)
Theorem play_base64_enqueues_decoded_audio (audio : bytes)
  (p : AudioPlayer.AudioPlayer) :
  audio <> [] ->
  AudioPlayer.is_playing p = true \/ AudioPlayer.device_ok p = true ->
  (exists p' out,
     AudioPlayer.play_base64 (JStr (b64encode audio)) p = (p', out, Ok tt) /\
     AudioPlayer.audio_queue p' = AudioPlayer.audio_queue p ++ [Some audio] /\
     AudioPlayer.is_playing p' = true /\
     AudioPlayer.written p' = AudioPlayer.written p) /\
  AudioPlayer.play_base64 (JStr (b64encode [])) p = (p, [], Ok tt).
Proof.
  intros Ha Hp. split; [|reflexivity].
  unfold AudioPlayer.play_base64. rewrite (b64encode_truthy audio Ha).
  cbn [negb]. unfold try_except, bind, lift, b64decode_value.
  rewrite b64decode_b64encode.
  destruct p as [r ch w k q pl th py st wr dev]. cbn in Hp.
  destruct pl; cbn.
  - do 2 eexists. split; [reflexivity|]. cbn. auto.
  - destruct Hp as [Hp|Hp]; [discriminate|]. subst dev. cbn.
    do 2 eexists. split; [reflexivity|]. cbn. auto.
Qed.

Lemma play_base64_enqueues_decoded_audio_witness :
  ([x01; x02] : bytes) <> [] /\
  AudioPlayer.audio_queue
    (fst (fst (AudioPlayer.play_base64 (JStr "AQI=")
                 (AudioPlayer.init 24000 1 2 1024 true))))
  = [Some [x01; x02]].
Proof.
  split; [discriminate|].
  destruct (play_base64_enqueues_decoded_audio [x01; x02]
              (AudioPlayer.init 24000 1 2 1024 true)
              ltac:(discriminate) (or_intror eq_refl))
    as [(p' & out & E & Hq & _) _].
  change (b64encode [x01; x02]) with "AQI=" in E.
  rewrite E. exact Hq.
Defined.

(** X9. When the output device cannot be opened, the first chunk given
    to [play_base64] is lost with a decode error printed although it
    decoded, the player is left marked as playing, and from then on,
    whatever is played, started, stopped or looped, nothing is ever
    written to the device. *)
Theorem player_without_device_never_plays (rate chans width chunk : Z)
  (audio : bytes) (ops : list Run.player_op) :
  audio <> [] ->
  exists p',
    AudioPlayer.play_base64 (JStr (b64encode audio))
      (AudioPlayer.init rate chans width chunk false)
    = (p', [AudioPlayer.PrintExn "解码音频数据失败: " OSError], Ok tt) /\
    AudioPlayer.audio_queue p' = [] /\
    AudioPlayer.is_playing p' = true /\
    AudioPlayer.written (Run.player_run ops p') = [].
Proof.
  intros Ha. eexists. split; [|split; [|split]].
  - unfold AudioPlayer.play_base64. rewrite (b64encode_truthy audio Ha).
    cbn [negb]. unfold try_except, bind, lift, b64decode_value.
    rewrite b64decode_b64encode. reflexivity.
  - reflexivity.
  - reflexivity.
  - match goal with |- AudioPlayer.written (Run.player_run ops ?q) = _ =>
      assert (H : forall os p, AudioPlayer.device_ok p = false ->
                               AudioPlayer.stream p = false ->
                               AudioPlayer.written (Run.player_run os p)
                               = AudioPlayer.written p);
      [|exact (H ops q eq_refl eq_refl)]
    end.
    induction os as [|o os IH]; intros p Hd Hs; [reflexivity|].
    cbn [Run.player_run].
    destruct (no_device_step o p Hd Hs) as (Hd' & Hs' & Hw).
    rewrite (IH _ Hd' Hs'). exact Hw.
Qed.

Lemma player_without_device_never_plays_witness :
  ([x01; x02] : bytes) <> [] /\
  exists p',
    AudioPlayer.play_base64 (JStr "AQI=")
      (AudioPlayer.init 24000 1 2 1024 false)
    = (p', [AudioPlayer.PrintExn "解码音频数据失败: " OSError], Ok tt) /\
    AudioPlayer.audio_queue p' = [] /\
    AudioPlayer.is_playing p' = true /\
    AudioPlayer.written
      (Run.player_run [Run.PlayBytes [x03]; Run.PlayStep] p') = [].
Proof.
  split; [discriminate|].
  exact (player_without_device_never_plays 24000 1 2 1024 [x01; x02]
           [Run.PlayBytes [x03]; Run.PlayStep] ltac:(discriminate)).
Defined.

(** X10. [stop] leaves the player not playing and the device as it was,
    and empties the queue of a player that was playing, closing its
    stream and ending its thread; a second [stop] does nothing. *)
Theorem stop_is_idempotent (p : AudioPlayer.AudioPlayer) :
  AudioPlayer.is_playing (Run.after (AudioPlayer.stop p)) = false /\
  AudioPlayer.written (Run.after (AudioPlayer.stop p)) = AudioPlayer.written p
  /\
  (AudioPlayer.is_playing p = false \/
   (AudioPlayer.audio_queue (Run.after (AudioPlayer.stop p)) = [] /\
    AudioPlayer.stream (Run.after (AudioPlayer.stop p)) = false /\
    AudioPlayer.play_thread (Run.after (AudioPlayer.stop p)) = false)) /\
  AudioPlayer.stop (Run.after (AudioPlayer.stop p))
  = (Run.after (AudioPlayer.stop p), [], Ok tt).
Proof.
  destruct p as [r ch w k q pl th py st wr dev].
  repeat split.
  - destruct pl; reflexivity.
  - destruct pl; reflexivity.
  - destruct pl; [right; repeat split|left; reflexivity].
  - destruct pl; reflexivity.
Qed.

(** X11. [play_base64] never raises and never writes to the device,
    whatever value it is given and whatever the state of the player:
    a payload that is empty, not a string, not decodable, or that
    meets a device that does not open, ends in a return. *)
Theorem play_base64_never_raises (x : json) (p : AudioPlayer.AudioPlayer) :
  exists p' out,
    AudioPlayer.play_base64 x p = (p', out, Ok tt) /\
    AudioPlayer.written p' = AudioPlayer.written p.
Proof. apply play_base64_returns. Qed.

(** X12. Stopping a playing player and playing again restarts it on a
    device that opens: the chunks queued before the stop are gone, the
    new chunk is the only one queued, and the next pass of the loop
    writes it. *)
Theorem stop_then_play_restarts (audio : bytes)
  (p : AudioPlayer.AudioPlayer) :
  AudioPlayer.is_playing p = true ->
  AudioPlayer.device_ok p = true ->
  AudioPlayer.audio_queue
    (Run.player_run [Run.StopPlayer; Run.PlayBytes audio] p)
  = [Some audio] /\
  AudioPlayer.is_playing
    (Run.player_run [Run.StopPlayer; Run.PlayBytes audio] p) = true /\
  AudioPlayer.written
    (Run.player_run [Run.StopPlayer; Run.PlayBytes audio; Run.PlayStep] p)
  = AudioPlayer.written p ++ [audio].
Proof.
  intros Hp Hd. destruct p as [r ch w k q pl th py st wr dev].
  cbn in Hp, Hd. subst pl dev. repeat split.
Qed.

Lemma stop_then_play_restarts_witness :
  AudioPlayer.is_playing
    (Run.player_run [Run.PlayBytes [x01]]
       (AudioPlayer.init 24000 1 2 1024 true)) = true /\
  AudioPlayer.written
    (Run.player_run [Run.StopPlayer; Run.PlayBytes [x02]; Run.PlayStep]
       (Run.player_run [Run.PlayBytes [x01]]
          (AudioPlayer.init 24000 1 2 1024 true)))
  = [[x02]].
Proof.
  split; [reflexivity|].
  exact (proj2 (proj2 (stop_then_play_restarts [x02]
                         (Run.player_run [Run.PlayBytes [x01]]
                            (AudioPlayer.init 24000 1 2 1024 true))
                         eq_refl eq_refl))).
Defined.

(** ** The player and the capture loop of [vad_mode.py] *)

Section VadModeRunFacts.

Import VadMode.

Lemma vad_playing_move (m : option bytes) (p : AudioPlayer) :
  Run.vad_playing p ->
  Run.vad_playing (run_op (Run.vad_move_op m) p) /\
  written (run_op (Run.vad_move_op m) p)
  ++ Run.chunks_of (queue (run_op (Run.vad_move_op m) p))
  = (written p ++ Run.chunks_of (queue p)) ++ Run.chunks_of [m].
Proof.
  intros (Ht & Hs & Hi & Hc & Hq). destruct p as [q se ie wr sc th].
  cbn in Ht, Hs, Hi, Hc, Hq. subst.
  destruct m as [b|]; cbn.
  - split.
    + repeat split. apply Forall_app. split; [exact Hq|].
      constructor; [discriminate|constructor].
    + rewrite chunks_of_app, app_assoc. reflexivity.
  - destruct q as [|[b|] q]; cbn.
    + split; [repeat split; constructor|rewrite ?app_nil_r; reflexivity].
    + split; [repeat split; inversion Hq; assumption|].
      rewrite !app_nil_r, <- app_assoc. reflexivity.
    + inversion Hq as [|x l Hn]. contradiction.
Qed.

(** Once the stop flag is set, a step of the player keeps it set and
    writes nothing. *)
Lemma stopped_step (o : op) (p : AudioPlayer) :
  stop_evt p = true ->
  stop_evt (run_op o p) = true /\ written (run_op o p) = written p.
Proof.
  intros Hs. destruct p as [q se ie wr sc th]. cbn in Hs. subst se.
  destruct o; cbn; auto.
  unfold _run_step; cbn. destruct th; cbn; auto.
Qed.

Lemma stopped_run (ops : list op) : forall p : AudioPlayer,
  stop_evt p = true ->
  stop_evt (run_ops ops p) = true /\ written (run_ops ops p) = written p.
Proof.
  induction ops as [|o ops IH]; intros p Hs; cbn [run_ops]; [auto|].
  destruct (stopped_step o p Hs) as [Hs' Hw].
  destruct (IH _ Hs') as [Hs'' Hw']. split; [exact Hs''|congruence].
Qed.

(** Once the thread has ended nothing starts it again. *)
Lemma ended_run (ops : list op) : forall p : AudioPlayer,
  thread_running p = false -> thread_running (run_ops ops p) = false.
Proof.
  induction ops as [|o ops IH]; intros p Ht; cbn [run_ops]; [exact Ht|].
  apply IH. destruct p as [q se ie wr sc th]. cbn in Ht. subst th.
  destruct o; reflexivity.
Qed.


End VadModeRunFacts.

(** X13. While the player of [vad_mode.py] is neither stopped nor
    interrupted, with [add_audio] calls and passes of the play thread
    in any interleaving, nothing is lost, repeated or reordered: what
    has been written followed by what is still queued is exactly the
    chunks enqueued, in the order they came. *)
Theorem vad_player_keeps_chunks_in_order (moves : list (option bytes)) :
  VadMode.written (VadMode.run_ops (map Run.vad_move_op moves) VadMode.init)
  ++ Run.chunks_of
       (VadMode.queue
          (VadMode.run_ops (map Run.vad_move_op moves) VadMode.init))
  = Run.chunks_of moves.
Proof.
  assert (H : forall (ms : list (option bytes)) (p : VadMode.AudioPlayer),
             Run.vad_playing p ->
             VadMode.written (VadMode.run_ops (map Run.vad_move_op ms) p)
             ++ Run.chunks_of
                  (VadMode.queue
                     (VadMode.run_ops (map Run.vad_move_op ms) p))
             = (VadMode.written p ++ Run.chunks_of (VadMode.queue p))
               ++ Run.chunks_of ms).
  { induction ms as [|m ms IH]; intros p Hp.
    - cbn. rewrite app_nil_r. reflexivity.
    - cbn [map VadMode.run_ops].
      destruct (vad_playing_move m p Hp) as [Hh He].
      rewrite (IH _ Hh), He, <- app_assoc, <- chunks_of_app. reflexivity. }
  rewrite H; [reflexivity|].
  repeat split. constructor.
Qed.

(** X14. After [stop] on the player of [vad_mode.py] nothing is written
    to the output any more, whatever is enqueued or played afterwards,
    and the play thread ends at its next pass and stays ended. *)
Theorem vad_player_silent_after_stop (p : VadMode.AudioPlayer)
  (ops : list VadMode.op) :
  VadMode.written (VadMode.run_ops (VadMode.Stop :: ops) p)
  = VadMode.written p /\
  VadMode.thread_running
    (VadMode.run_ops (VadMode.Stop :: VadMode.RunStep :: ops) p) = false.
Proof.
  split.
  - cbn [VadMode.run_ops VadMode.run_op].
    exact (proj2 (stopped_run ops (VadMode.stop p) eq_refl)).
  - cbn [VadMode.run_ops VadMode.run_op]. apply ended_run.
    destruct p as [q se ie wr sc th]. unfold VadMode._run_step. cbn.
    destruct th; reflexivity.
Qed.


(** ** The dispatcher of [message_handler.py], message by message *)

Section MessageHandlerRunFacts.

Import MessageHandler.

Variable json_loads : string -> result json.

Ltac destruct_scrutinee :=
  match goal with
  | |- context [match ?x with _ => _ end] =>
      lazymatch x with
      | context [match _ with _ => _ end] => fail
      | _ => destruct x eqn:?
      end
  end.

(** [play_base64] on the player of the handler changes the player and
    nothing else. *)
Lemma dispatch_keeps_handler (m : message) (h h' : MessageHandler)
  (out : list effect) (r : result unit) :
  dispatch json_loads m h = (h', out, r) ->
  _custom_handlers h' = _custom_handlers h /\
  shutdown_event h' = shutdown_event h /\
  client_closed h' = client_closed h.
Proof.
  unfold dispatch, _handle_session_messages, _handle_audio_input_messages,
    _handle_conversation_messages, _handle_response_messages,
    _handle_function_call, print_response_id_and_status,
    find_custom_handler, on_player, attr_or.
  unfold bind, lift, emit, modify, get, call, ret, raise, try_except.
  repeat (cbn; destruct_scrutinee); cbn.
  all: intros H; inversion H; subst; clear H; cbn; repeat split.
Qed.


End MessageHandlerRunFacts.



(** X17. A [response.audio.delta] message held in a dict, with a string
    for its ["delta"] and no handler registered for the type, never
    raises out of the dispatch, whatever the string: the player of the
    handler, if there is one, is left as [play_base64] on that string
    leaves it, and nothing else in the handler changes. *)
Theorem audio_delta_message_never_raises
  (json_loads : string -> result json) (m : MessageHandler.message)
  (s : string) (h : MessageHandler.MessageHandler) :
  MessageHandler.is_dict m = true ->
  lookup_key "type" (MessageHandler.attrs m)
  = Some (JStr "response.audio.delta") ->
  lookup_key "delta" (MessageHandler.attrs m) = Some (JStr s) ->
  MessageHandler._custom_handlers h !! "response.audio.delta" = None ->
  exists h' out,
    MessageHandler.dispatch json_loads m h = (h', out, Ok tt) /\
    MessageHandler.audio_player h'
    = match MessageHandler.audio_player h with
      | Some p => Some (Run.after (AudioPlayer.play_base64 (JStr s) p))
      | None => None
      end /\
    MessageHandler._custom_handlers h' = MessageHandler._custom_handlers h /\
    MessageHandler.shutdown_event h' = MessageHandler.shutdown_event h /\
    MessageHandler.client_closed h' = MessageHandler.client_closed h.
Proof.
  intros Hd Ht Hdelta Hn.
  assert (E : exists h' out,
             MessageHandler.dispatch json_loads m h = (h', out, Ok tt) /\
             MessageHandler.audio_player h'
             = match MessageHandler.audio_player h with
               | Some p =>
                   Some (Run.after (AudioPlayer.play_base64 (JStr s) p))
               | None => None
               end).
  { unfold MessageHandler.dispatch, MessageHandler.message_type,
      MessageHandler.find_custom_handler,
      MessageHandler._handle_response_messages, MessageHandler.on_player.
    unfold MessageHandler.hasattr, MessageHandler.msg_get.
    unfold bind, lift, get, call, emit, ret, raise, try_except.
    repeat (first [rewrite Hd|rewrite Ht|rewrite Hn|rewrite Hdelta]; cbn).
    destruct (MessageHandler.audio_player h) as [p|] eqn:Hp;
      destruct (String.eqb s "") eqn:Es; cbn; rewrite ?Hp, ?Es; cbn;
      rewrite ?Hp, ?Es; cbn.
    - apply String.eqb_eq in Es. subst s.
      do 2 eexists. split; [reflexivity|]. exact Hp.
    - destruct (play_base64_returns (JStr s) p) as (p' & out & E & _).
      rewrite E. cbn.
      do 2 eexists. split; [reflexivity|]. reflexivity.
    - do 2 eexists. split; [reflexivity|]. exact Hp.
    - do 2 eexists. split; [reflexivity|]. exact Hp. }
  destruct E as (h' & out & E & Hp).
  exists h', out. split; [exact E|]. split; [exact Hp|].
  exact (dispatch_keeps_handler json_loads _ _ _ _ _ E).
Qed.

Lemma audio_delta_message_never_raises_witness :
  let m :=
    {| MessageHandler.is_dict := true;
       MessageHandler.attrs :=
         [("type", JStr "response.audio.delta"); ("delta", JStr "A")] |} in
  let h := fst (MessageHandler.init None true 24000 1 2 true true) in
  lookup_key "delta" (MessageHandler.attrs m) = Some (JStr "A") /\
  exists h' out,
    MessageHandler.dispatch (fun _ => Raise JSONDecodeError) m h
    = (h', out, Ok tt).
Proof.
  cbv zeta. split; [reflexivity|].
  destruct (audio_delta_message_never_raises
              (fun _ => Raise JSONDecodeError)
              {| MessageHandler.is_dict := true;
                 MessageHandler.attrs :=
                   [("type", JStr "response.audio.delta");
                    ("delta", JStr "A")] |}
              "A" (fst (MessageHandler.init None true 24000 1 2 true true))
              eq_refl eq_refl eq_refl eq_refl)
    as (h' & out & E & _).
  exists h', out. exact E.
Defined.

(** X18. When [receive_messages] is left, the connection is closed and
    the player of the handler, if there is one, is not playing; the
    device holds what it held when the loop ended. *)
Theorem receive_messages_releases_on_exit
  (json_loads : string -> result json)
  (inputs pending : list MessageHandler.inbound)
  (h h' : MessageHandler.MessageHandler) (out : list MessageHandler.effect) :
  MessageHandler.receive_messages json_loads inputs h
  = (h', out, MessageHandler.Exited, pending) ->
  MessageHandler.client_closed h' = true /\
  match MessageHandler.audio_player h' with
  | Some p => AudioPlayer.is_playing p = false
  | None => True
  end.
Proof.
  unfold MessageHandler.receive_messages.
  destruct (MessageHandler.receive_loop json_loads inputs h)
    as [[[h1 out1] ex] pend].
  destruct ex; [discriminate|].
  unfold MessageHandler.finish.
  destruct (MessageHandler.audio_player h1) as [p|] eqn:Hp.
  - destruct p as [r ch w k q pl th py st wr dev].
    destruct pl; cbn; destruct (MessageHandler.client_closed h1) eqn:Hc;
      cbn; intros H; inversion H; subst; cbn; rewrite ?Hp; auto.
  - destruct (MessageHandler.client_closed h1) eqn:Hc;
      cbn; intros H; inversion H; subst; cbn; rewrite ?Hp; auto.
Qed.

Lemma receive_messages_releases_on_exit_witness :
  let inputs :=
    [MessageHandler.Recv
       (Some {| MessageHandler.is_dict := true;
                MessageHandler.attrs :=
                  [("type", JStr "response.audio.delta");
                   ("delta", JStr "AQI=")] |});
     MessageHandler.ConnectionLost] in
  let h := fst (MessageHandler.init None true 24000 1 2 true true) in
  let r :=
    MessageHandler.receive_messages (fun _ => Raise JSONDecodeError)
      inputs h in
  r = (fst (fst (fst r)), snd (fst (fst r)), MessageHandler.Exited, []) /\
  MessageHandler.client_closed (fst (fst (fst r))) = true.
Proof.
  intros inputs h r. split; [reflexivity|].
  exact (proj1 (receive_messages_releases_on_exit
                  (fun _ => Raise JSONDecodeError) inputs [] h
                  (fst (fst (fst r))) (snd (fst (fst r))) eq_refl)).
Defined.




(** ** The capture loops of the low-level samples *)

Section CaptureFacts.

Lemma mic_reads_app (t1 t2 : list ServerVad.effect) :
  Run.mic_reads (t1 ++ t2) = Run.mic_reads t1 ++ Run.mic_reads t2.
Proof.
  induction t1 as [|e t1 IH]; [reflexivity|].
  destruct e; cbn; rewrite ?IH; reflexivity.
Qed.

Lemma mic_sent_app (t1 t2 : list ServerVad.effect) :
  Run.mic_sent (t1 ++ t2) = Run.mic_sent t1 ++ Run.mic_sent t2.
Proof.
  induction t1 as [|e t1 IH]; [reflexivity|].
  destruct e; cbn; rewrite ?IH; reflexivity.
Qed.

Lemma mic_playback_app (t1 t2 : list ServerVad.effect) :
  Run.mic_playback (t1 ++ t2) = Run.mic_playback t1 ++ Run.mic_playback t2.
Proof.
  induction t1 as [|e t1 IH]; [reflexivity|].
  destruct e; cbn; rewrite ?IH; reflexivity.
Qed.

(** The loop over the microphone: what is sent is the encoding of what
    was read, one read at most still unsent; the loopback repeats the
    reads; no stream is opened or closed inside the loop. *)
Lemma mic_loop_spec (enable : bool) (passes : list ServerVad.pass) :
  forall samples,
  Run.mic_sent (ServerVad.mic_loop enable samples passes)
  = map b64encode
      (firstn (List.length
                 (Run.mic_sent (ServerVad.mic_loop enable samples passes)))
         (Run.mic_reads (ServerVad.mic_loop enable samples passes))) /\
  (List.length (Run.mic_reads (ServerVad.mic_loop enable samples passes))
   <= S (List.length
           (Run.mic_sent (ServerVad.mic_loop enable samples passes))))%nat /\
  Run.mic_playback (ServerVad.mic_loop enable samples passes)
  = (if enable
     then Run.mic_reads (ServerVad.mic_loop enable samples passes)
     else []) /\
  Run.count Run.is_mic_open (ServerVad.mic_loop enable samples passes) = O /\
  Run.count Run.is_mic_close (ServerVad.mic_loop enable samples passes) = O /\
  Run.count Run.is_playback_open
    (ServerVad.mic_loop enable samples passes) = O /\
  Run.count Run.is_playback_close
    (ServerVad.mic_loop enable samples passes) = O.
Proof.
  induction passes as [|p rest IH]; intros samples.
  - cbn. destruct enable; repeat split; lia.
  - cbn [ServerVad.mic_loop].
    destruct (ServerVad.shutdown_is_set p);
      [cbn; destruct enable; repeat split; lia|].
    destruct (ServerVad.read p) as [d|e];
      [|cbn; destruct enable; repeat split; lia].
    destruct (ServerVad.send p) as [e|].
    + destruct enable; cbn; repeat split; lia.
    + destruct (IH (S samples)) as (Hs & Hl & Hp & H1 & H2 & H3 & H4).
      unfold Run.count in *.
      destruct enable, (Nat.modulo (S samples) 100 =? 0)%nat; cbn;
        rewrite <- Hs; cbn in *; rewrite ?Hp, ?H1, ?H2, ?H3, ?H4;
        repeat split; lia.
Qed.

Lemma sent_audio_app (t1 t2 : list ServerVadRadio.effect) :
  ServerVadRadio.sent_audio (t1 ++ t2)
  = ServerVadRadio.sent_audio t1 ++ ServerVadRadio.sent_audio t2.
Proof.
  induction t1 as [|e t1 IH]; [reflexivity|].
  destruct e; cbn; rewrite ?IH; reflexivity.
Qed.

Lemma firstn_nil_inv {A} (n : nat) (l : list A) :
  (0 < n)%nat -> firstn n l = [] -> l = [].
Proof. destruct n, l; cbn; intros; first [lia|reflexivity|discriminate]. Qed.

(** The loop over the file: the packets sent are consecutive pieces of
    what was left of the file, none of them empty, none longer than a
    packet; when the end of the file is announced nothing is left. *)
Lemma file_loop_spec (enable : bool) (size : nat)
  (passes : list ServerVadRadio.pass) :
  (0 < size)%nat ->
  forall samples remaining,
  exists chunks rest,
    ServerVadRadio.sent_audio
      (ServerVadRadio.file_loop enable size samples remaining passes)
    = map b64encode chunks /\
    remaining = concat chunks ++ rest /\
    (rest = [] \/
     existsb ServerVadRadio.is_file_done
       (ServerVadRadio.file_loop enable size samples remaining passes)
     = false) /\
    Forall (fun c => c <> [] /\ (List.length c <= size)%nat) chunks.
Proof.
  intros Hsize. induction passes as [|p rest IH]; intros samples remaining.
  - exists [], remaining. repeat split; auto.
  - cbn [ServerVadRadio.file_loop].
    destruct (ServerVadRadio.shutdown_is_set p);
      [exists [], remaining; repeat split; auto|].
    destruct (firstn size remaining) as [|b packet] eqn:Ep.
    + exists [], remaining. repeat split; auto.
      left. exact (firstn_nil_inv _ _ Hsize Ep).
    + destruct (ServerVadRadio.send p) as [e|].
      * exists [], remaining.
        destruct enable, (ServerVadRadio.shutdown_after_send p);
          repeat split; auto.
      * destruct (IH (S samples) (skipn size remaining))
          as (chunks & left_over & Hs & Hr & Hd & Hc).
        exists ((b :: packet) :: chunks), left_over.
        assert (Hlen : (List.length (b :: packet) <= size)%nat).
        { rewrite <- Ep. rewrite length_firstn. lia. }
        destruct enable, (Nat.modulo (S samples) 100 =? 0)%nat; cbn;
          rewrite Hs; (split; [reflexivity|]);
          (split; [rewrite <- app_assoc, <- Hr;
                   change (b :: packet ++ skipn size remaining)
                     with ((b :: packet) ++ skipn size remaining);
                   rewrite <- Ep; symmetry; apply firstn_skipn|]);
          (split; [exact Hd|]);
          (constructor; [split; [discriminate|exact Hlen]|exact Hc]).
Qed.

Lemma packet_bytes_pos (w : ServerVadRadio.wav) :
  (0 < ServerVadRadio.packet_bytes w)%nat.
Proof. unfold ServerVadRadio.packet_bytes, ServerVadRadio.packet_samples. lia. Qed.

End CaptureFacts.

Section CaptureRuns.

Ltac mic_flags :=
  unfold ServerVad.send_audio_from_mic, ServerVad.capture;
  repeat match goal with
         | |- context [if ?b then _ else _] => is_var b; destruct b
         | |- context [match ServerVad.wait ?p with _ => _ end] =>
             destruct (ServerVad.wait p)
         end.

(** X20. [send_audio_from_mic] closes every stream it opens, whatever
    goes wrong on the way: in every run the microphone is opened at most
    once, and it is closed as many times as it is opened; so is the
    playback stream. *)
Theorem send_audio_from_mic_closes_what_it_opens
  (session_ready_event shutdown_event enable_mic_playback mic_ok
   playback_ok : bool) (samples : nat) (passes : list ServerVad.pass) :
  let trace :=
    ServerVad.send_audio_from_mic session_ready_event shutdown_event
      enable_mic_playback mic_ok playback_ok samples passes in
  (Run.count Run.is_mic_open trace <= 1)%nat /\
  Run.count Run.is_mic_close trace = Run.count Run.is_mic_open trace /\
  Run.count Run.is_playback_close trace
  = Run.count Run.is_playback_open trace.
Proof.
  cbv zeta. mic_flags; unfold Run.count; cbn;
    rewrite ?List.filter_app, ?length_app; cbn;
    repeat match goal with
           | |- context [ServerVad.mic_loop ?e ?s ?p] =>
               let H := fresh in
               pose proof (mic_loop_spec e p s) as H;
               unfold Run.count in H;
               destruct H as (_ & _ & _ & -> & -> & -> & ->)
           end;
    cbn; repeat split; lia.
Qed.

(** X21. Every append message [send_audio_from_mic] sends carries the
    Base64 encoding of a packet it read from the microphone, in reading
    order and with none skipped; at most the last packet read is left
    unsent. *)
Theorem send_audio_from_mic_sends_what_it_reads
  (session_ready_event shutdown_event enable_mic_playback mic_ok
   playback_ok : bool) (samples : nat) (passes : list ServerVad.pass) :
  let trace :=
    ServerVad.send_audio_from_mic session_ready_event shutdown_event
      enable_mic_playback mic_ok playback_ok samples passes in
  Run.mic_sent trace
  = map b64encode
      (firstn (List.length (Run.mic_sent trace)) (Run.mic_reads trace)) /\
  (List.length (Run.mic_reads trace)
   <= S (List.length (Run.mic_sent trace)))%nat.
Proof.
  cbv zeta. mic_flags; cbn;
    rewrite ?mic_sent_app, ?mic_reads_app; cbn; rewrite ?app_nil_r;
    try (split; [reflexivity|lia]);
    match goal with
    | |- context [ServerVad.mic_loop ?e ?s ?p] =>
        destruct (mic_loop_spec e p s) as (Hs & Hl & _)
    end; split; assumption.
Qed.

(** X22. With the loopback enabled, [send_audio_from_mic] writes to the
    playback stream exactly the packets it read from the microphone, in
    order; with the loopback disabled it writes nothing. *)
Theorem send_audio_from_mic_loopback
  (session_ready_event shutdown_event enable_mic_playback mic_ok
   playback_ok : bool) (samples : nat) (passes : list ServerVad.pass) :
  let trace :=
    ServerVad.send_audio_from_mic session_ready_event shutdown_event
      enable_mic_playback mic_ok playback_ok samples passes in
  Run.mic_playback trace
  = if enable_mic_playback then Run.mic_reads trace else [].
Proof.
  cbv zeta.
  destruct enable_mic_playback;
    unfold ServerVad.send_audio_from_mic, ServerVad.capture;
    repeat match goal with
           | |- context [if ?b then _ else _] => is_var b; destruct b
           | |- context [match ServerVad.wait ?p with _ => _ end] =>
               destruct (ServerVad.wait p)
           end; cbn;
    rewrite ?mic_playback_app, ?mic_reads_app; cbn; rewrite ?app_nil_r;
    try reflexivity;
    match goal with
    | |- context [ServerVad.mic_loop ?e ?s ?p] =>
        destruct (mic_loop_spec e p s) as (_ & _ & Hp & _)
    end; exact Hp.
Qed.

Lemma mic_loop_stops_at_shutdown (enable : bool) (p : ServerVad.pass)
  (before after : list ServerVad.pass) :
  ServerVad.shutdown_is_set p = true ->
  forall samples,
  ServerVad.mic_loop enable samples (before ++ p :: after)
  = ServerVad.mic_loop enable samples before.
Proof.
  intros Hp. induction before as [|q before IH]; intros samples.
  - cbn. rewrite Hp. reflexivity.
  - cbn [app ServerVad.mic_loop].
    destruct (ServerVad.shutdown_is_set q); [reflexivity|].
    destruct (ServerVad.read q); [|reflexivity].
    destruct (ServerVad.send q); [reflexivity|].
    rewrite IH. reflexivity.
Qed.

(** X23. Once the recording of [send_audio_from_mic] is under way, the
    first time the loop finds the shutdown event set it stops: nothing
    the loop would have met afterwards changes the run, so no packet is
    read or sent after that point. *)
Theorem capture_stops_at_shutdown
  (shutdown_event enable_mic_playback mic_ok playback_ok : bool)
  (samples : nat) (p : ServerVad.pass)
  (before after : list ServerVad.pass) :
  ServerVad.shutdown_is_set p = true ->
  ServerVad.capture shutdown_event enable_mic_playback mic_ok playback_ok
    samples (before ++ p :: after)
  = ServerVad.capture shutdown_event enable_mic_playback mic_ok playback_ok
      samples before.
Proof.
  intros Hp. unfold ServerVad.capture.
  rewrite (mic_loop_stops_at_shutdown _ _ _ _ Hp). reflexivity.
Qed.

Lemma capture_stops_at_shutdown_witness :
  let p := {| ServerVad.session_ready_is_set := true;
              ServerVad.shutdown_is_set := true;
              ServerVad.loop_time := inject_Z 2;
              ServerVad.read := Ok [x03];
              ServerVad.send := None |} in
  let q := {| ServerVad.session_ready_is_set := true;
              ServerVad.shutdown_is_set := false;
              ServerVad.loop_time := inject_Z 1;
              ServerVad.read := Ok [x01; x02];
              ServerVad.send := None |} in
  ServerVad.shutdown_is_set p = true /\
  ServerVad.capture true false true true 0 ([q] ++ p :: [q])
  = ServerVad.capture true false true true 0 [q].
Proof.
  intros p q. split; [reflexivity|].
  exact (capture_stops_at_shutdown true false true true 0 p [q] [q] eq_refl).
Defined.

Ltac file_flags :=
  unfold ServerVadRadio.send_audio_from_file, ServerVadRadio.after_wait,
    ServerVadRadio.send_file;
  repeat match goal with
         | |- context [if ?b then _ else _] => is_var b; destruct b
         | |- context [match ServerVadRadio.wait ?p with _ => _ end] =>
             destruct (ServerVadRadio.wait p)
         | |- context [if ServerVadRadio.format_mismatch ?w then _ else _] =>
             destruct (ServerVadRadio.format_mismatch w)
         end.

(** X24. [send_audio_from_file] streams the file in order and without
    gaps: the payloads of the append messages it sends are the Base64
    encodings of consecutive pieces of the WAV data, starting at its
    first byte, none empty and none longer than one packet of 1600
    frames; and when the run announces the end of the file, the pieces
    sent make up the whole data. *)
Theorem send_audio_from_file_streams_the_file
  (session_ready_event shutdown_event enable_playback playback_ok
   file_exists : bool) (w : ServerVadRadio.wav) (samples : nat)
  (passes : list ServerVadRadio.pass) :
  let trace :=
    ServerVadRadio.send_audio_from_file session_ready_event shutdown_event
      enable_playback playback_ok file_exists (Ok w) samples passes in
  exists chunks rest,
    ServerVadRadio.sent_audio trace = map b64encode chunks /\
    ServerVadRadio.data w = concat chunks ++ rest /\
    (rest = [] \/ existsb ServerVadRadio.is_file_done trace = false) /\
    Forall (fun c => c <> [] /\
                     (List.length c <= ServerVadRadio.packet_bytes w)%nat)
      chunks.
Proof.
  cbv zeta. file_flags;
    lazymatch goal with
    | |- context [ServerVadRadio.file_loop ?e ?n ?s ?r ?p] =>
        destruct (file_loop_spec e n p (packet_bytes_pos w) s r)
          as (chunks & rest & Hs & Hr & Hd & Hc);
        exists chunks, rest; cbn;
        rewrite ?sent_audio_app, ?existsb_app; cbn;
        rewrite ?app_nil_r, ?orb_false_r;
        repeat split; assumption
    | |- _ =>
        exists [], (ServerVadRadio.data w); cbn;
        repeat split; auto
    end.
Qed.

(** X25. When the session-ready event is installed,
    [send_audio_from_file] reads nothing from the file and sends no
    append message before its wait on that event has returned; while the
    event is never set it reads and sends nothing at all. *)
Theorem send_audio_from_file_waits_for_session_ready
  (shutdown_event enable_playback playback_ok file_exists : bool)
  (opened : result ServerVadRadio.wav) (samples : nat)
  (passes : list ServerVadRadio.pass) :
  let trace :=
    ServerVadRadio.send_audio_from_file true shutdown_event enable_playback
      playback_ok file_exists opened samples passes in
  Capture.gated ServerVadRadio.is_session_ready
    ServerVadRadio.is_audio_emission trace = true /\
  match ServerVadRadio.wait passes with
  | None => existsb ServerVadRadio.is_audio_emission trace = false
  | Some rest =>
      trace
      = ServerVadRadio.Print "⏳ 等待会话配置完成..."
        :: ServerVadRadio.SessionReadyWaited
        :: ServerVadRadio.Print "✅ 会话已就绪，开始发送音频文件"
        :: ServerVadRadio.after_wait shutdown_event enable_playback
             playback_ok file_exists opened samples rest
  end.
Proof.
  cbv zeta. unfold ServerVadRadio.send_audio_from_file.
  destruct (ServerVadRadio.wait passes); split; reflexivity.
Qed.

(** X26. A file that is missing, or that [wave.open] rejects, is never
    streamed: [send_audio_from_file] then reads no packet and sends no
    append message. *)
Theorem send_audio_from_file_needs_the_file
  (session_ready_event shutdown_event enable_playback playback_ok
   file_exists : bool) (opened : result ServerVadRadio.wav)
  (samples : nat) (passes : list ServerVadRadio.pass) :
  file_exists = false \/ (exists e, opened = Raise e) ->
  existsb ServerVadRadio.is_audio_emission
    (ServerVadRadio.send_audio_from_file session_ready_event shutdown_event
       enable_playback playback_ok file_exists opened samples passes)
  = false.
Proof.
  intros [-> | [e ->]]; file_flags; reflexivity.
Qed.

Lemma send_audio_from_file_needs_the_file_witness :
  let p := {| ServerVadRadio.session_ready_is_set := true;
              ServerVadRadio.shutdown_is_set := false;
              ServerVadRadio.loop_time := inject_Z 1;
              ServerVadRadio.send := None;
              ServerVadRadio.shutdown_after_send := false |} in
  let w := {| ServerVadRadio.nchannels := 1%positive;
              ServerVadRadio.sampwidth := 2%positive;
              ServerVadRadio.framerate := 16000;
              ServerVadRadio.data := [x01; x02] |} in
  (false = false \/ exists e, Ok w = Raise e) /\
  existsb ServerVadRadio.is_audio_emission
    (ServerVadRadio.send_audio_from_file true true false true false (Ok w)
       0 [p; p]) = false.
Proof.
  intros p w. split; [left; reflexivity|].
  exact (send_audio_from_file_needs_the_file true true false true false
           (Ok w) 0 [p; p] (or_introl eq_refl)).
Defined.

End CaptureRuns.

(** ** The size of the audio payload *)

Section PayloadSize.

Lemma string_of_list_ascii_length (l : list ascii) :
  String.length (string_of_list_ascii l) = List.length l.
Proof. induction l as [|a l IH]; cbn; [|rewrite IH]; reflexivity. Qed.

Lemma b2a_base64_length (bs : bytes) :
  List.length (b2a_base64 bs) = (4 * ((List.length bs + 2) / 3))%nat.
Proof.
  induction bs as [|b1|b1 b2|b1 b2 b3 rest IH] using bytes_triple_ind;
    try reflexivity.
  cbn [b2a_base64 List.length]. rewrite IH.
  replace (S (S (S (List.length rest))) + 2)%nat
    with (1 * 3 + (List.length rest + 2))%nat by lia.
  rewrite Nat.div_add_l by lia. lia.
Qed.

(** X27. The append event [stream_audio] sends has three fields, the
    type, the audio and the event id, and its audio payload is plain
    ASCII text of four characters for every three bytes of the chunk,
    the last group padded: [4 * ceil(n / 3)] characters for [n] bytes. *)
Theorem stream_audio_payload_size (now : Q) (audio_chunk : bytes)
  (c : OmniRealtimeClient.client) :
  exists payload,
    OmniRealtimeClient.stream_audio now audio_chunk c
    = (c,
       [OmniRealtimeClient.WsSend
          [("type", JStr "input_audio_buffer.append");
           ("audio", JStr payload);
           ("event_id", JStr (OmniRealtimeClient.event_id now))]],
       Ok tt) /\
    String.length payload
    = (4 * ((List.length audio_chunk + 2) / 3))%nat /\
    forallb is_ascii (list_ascii_of_string payload) = true.
Proof.
  exists (b64encode audio_chunk). split; [reflexivity|].
  unfold b64encode.
  rewrite string_of_list_ascii_length, b2a_base64_length,
    list_ascii_of_string_of_list_ascii, b2a_base64_is_ascii.
  split; reflexivity.
Qed.

End PayloadSize.
